(** * RDP (RFC 908) over datagrams: packet codec and connection state machine

    A shallow embedding of [src/rdp_protocol.py] (class [RDPPacket]) and
    [src/rdp_connection.py] (class [RDPConnection]), with the properties the
    specification states about them.

    Conventions of the embedding:
    - Python integers are [Z]; [bytes] objects are lists of [byte];
    - an attribute that may hold [None] is an [option];
    - a call that raises is modelled by an explicit error result, and the
      mutations made before the raise are kept in the resulting state. *)

From Stdlib Require Import String DecimalString ZArith List Lia Bool.
From Stdlib.Strings Require Import Byte.
From Equations Require Import Equations.
Import ListNotations.
Local Open Scope Z_scope.

(** ** Bytes and big-endian integers *)

Definition bytes := list byte.

Definition byte_val (b : byte) : Z := Z.of_N (Byte.to_N b).

Definition byte_of_Z (z : Z) : byte :=
  match Byte.of_N (Z.to_N (z mod 256)) with
  | Some b => b
  | None => x00
  end.

(** [int.from_bytes(bs, byteorder='big')]. *)
Fixpoint from_bytes_big (bs : bytes) : Z :=
  match bs with
  | [] => 0
  | b :: rest => byte_val b * 256 ^ Z.of_nat (length rest) + from_bytes_big rest
  end.

(** [v.to_bytes(n, byteorder='big')] for [0 <= v < 256 ^ n]. *)
Fixpoint to_bytes_big (n : nat) (v : Z) : bytes :=
  match n with
  | O => []
  | S k => byte_of_Z (v / 256 ^ Z.of_nat k) :: to_bytes_big k v
  end.

(** ** Exceptions

    The exceptions the modelled code can raise, and the outcome of a call. *)
Inductive exn := struct_error | TypeError | AttributeError.

Inductive result (A : Type) :=
| Return (a : A)
| Raise (e : exn).
Arguments Return {A} a.
Arguments Raise {A} e.

(** ** The part of Python's [struct] module the codec uses

    Formats are in network order without padding (["!"]); ["H"] is an unsigned
    16-bit field and ["I"] an unsigned 32-bit field.  [None] as a result stands
    for [struct.error]. *)
Module struct.

Inductive fmt := H | I.

Definition size (f : fmt) : nat :=
  match f with H => 2%nat | I => 4%nat end.

Fixpoint calcsize (fs : list fmt) : nat :=
  match fs with
  | [] => O
  | f :: rest => (size f + calcsize rest)%nat
  end.

(** One argument of [struct.pack]: it must be an integer (not [None]) that
    fits the field. *)
Definition pack1 (f : fmt) (v : option Z) : option bytes :=
  match v with
  | None => None
  | Some z =>
      if (0 <=? z) && (z <? 256 ^ Z.of_nat (size f))
      then Some (to_bytes_big (size f) z)
      else None
  end.

Fixpoint pack (fs : list fmt) (vs : list (option Z)) : option bytes :=
  match fs, vs with
  | [], [] => Some []
  | f :: fs', v :: vs' =>
      match pack1 f v, pack fs' vs' with
      | Some b, Some bs => Some (b ++ bs)
      | _, _ => None
      end
  | _, _ => None
  end.

Fixpoint unpack_fields (fs : list fmt) (bs : bytes) : list Z :=
  match fs with
  | [] => []
  | f :: fs' =>
      from_bytes_big (firstn (size f) bs) :: unpack_fields fs' (skipn (size f) bs)
  end.

(** [struct.unpack] requires a buffer of exactly [calcsize] bytes. *)
Definition unpack (fs : list fmt) (bs : bytes) : option (list Z) :=
  if Nat.eqb (length bs) (calcsize fs) then Some (unpack_fields fs bs) else None.

End struct.

(** ** [RDPPacket] (src/rdp_protocol.py) *)
Module RDPPacket.

Record t := mk {
  source_port : option Z;
  dest_port : option Z;
  seq_num : Z;
  ack_num : Z;
  data : bytes;
  syn : bool;
  ack : bool;
  eack : bool;
  rst : bool;
  nul : bool
}.

(** [len(self.data)] *)
Definition data_length (self : t) : Z := Z.of_nat (length (data self)).

(** The loops [for i in range(0, len(x), 2): checksum += int.from_bytes(x[i:i+2], 'big')]:
    the last slice of an odd-length [x] holds a single byte. *)
Fixpoint sum_words (checksum : Z) (x : bytes) : Z :=
  match x with
  | [] => checksum
  | [b] => checksum + from_bytes_big [b]
  | b1 :: b2 :: rest => sum_words (checksum + from_bytes_big [b1; b2]) rest
  end.

(** [compute_checksum], lines 111-135.  [None] is the [struct.error] of the
    packing at line 126, where the payload length is an ["H"] field. *)
Definition compute_checksum (self : t) : option Z :=
  match struct.pack [struct.H; struct.H; struct.H; struct.I; struct.I]
          [source_port self; dest_port self; Some (data_length self);
           Some (seq_num self); Some (ack_num self)] with
  | None => None
  | Some header_data =>
      let checksum := 0 in
      let checksum := sum_words checksum header_data in
      let checksum := sum_words checksum (data self) in
      let checksum := Z.shiftr checksum 16 + Z.land checksum 0xffff in
      let checksum := Z.shiftr checksum 16 + checksum in
      Some (Z.land (Z.lnot checksum) 0xffff)
  end.

(** The 16-bit control word of [encode], lines 54-64. *)
Definition control_and_version (self : t) : Z :=
  let flags := 0 in
  let flags := Z.lor flags (Z.shiftl (Z.b2z (syn self)) 3) in
  let flags := Z.lor flags (Z.shiftl (Z.b2z (ack self)) 2) in
  let flags := Z.lor flags (Z.shiftl (Z.b2z (eack self)) 1) in
  let flags := Z.lor flags (Z.b2z (rst self)) in
  let flags := Z.lor flags (Z.shiftl (Z.b2z (nul self)) 4) in
  let header_length := 9 in
  let version := 1 in
  Z.lor (Z.lor (Z.shiftl version 12) (Z.shiftl flags 8)) header_length.

Definition header_format : list struct.fmt :=
  [struct.H; struct.H; struct.H; struct.I; struct.I; struct.I; struct.I].

(** [encode], lines 46-82.  [None] is a [struct.error], raised either by
    [compute_checksum] or by the packing of the header. *)
Definition encode (self : t) : option bytes :=
  match compute_checksum self with
  | None => None
  | Some checksum =>
      match struct.pack header_format
              [Some (control_and_version self); source_port self; dest_port self;
               Some (data_length self); Some (seq_num self); Some (ack_num self);
               Some checksum] with
      | None => None
      | Some header => Some (header ++ data self)
      end
  end.

(** [x & 1] as a Python truth value. *)
Definition bit0 (x : Z) : bool := negb (Z.land x 1 =? 0).

(** [decode], lines 85-109.  [None] is the [struct.error] of [struct.unpack]
    on a slice shorter than 22 bytes.  The flags are read from the low byte
    of the control word; the checksum field is unpacked and dropped. *)
Definition decode (packet_bytes : bytes) : option t :=
  match struct.unpack header_format (firstn 22 packet_bytes) with
  | Some [control_and_version; source_port; dest_port; data_length; seq_num;
          ack_num; checksum] =>
      let flags := Z.land control_and_version 0xFF in
      let syn := bit0 (Z.shiftr flags 3) in
      let ack := bit0 (Z.shiftr flags 2) in
      let eack := bit0 (Z.shiftr flags 1) in
      let rst := bit0 flags in
      let nul := bit0 (Z.shiftr flags 4) in
      let data := skipn 22 packet_bytes in
      Some (mk (Some source_port) (Some dest_port) seq_num ack_num data
               syn ack eack rst nul)
  | _ => None
  end.

(** A call of the static method [decode] on the positional arguments
    [args].  Reached through an instance ([packet.decode()]) a static method
    is not bound to the instance, so that call passes no argument at all and
    Python raises [TypeError] for the missing [packet_bytes]. *)
Definition call_decode (args : list bytes) : result t :=
  match args with
  | [packet_bytes] =>
      match decode packet_bytes with
      | Some p => Return p
      | None => Raise struct_error
      end
  | _ => Raise TypeError
  end.

End RDPPacket.

(** ** [RDPConnection] (src/rdp_connection.py) *)
Module RDPConnection.

Inductive State := CLOSED | LISTEN | SYN_SENT | SYN_RCVD | OPEN | CLOSE_WAIT.

Definition State_eqb (a b : State) : bool :=
  match a, b with
  | CLOSED, CLOSED | LISTEN, LISTEN | SYN_SENT, SYN_SENT
  | SYN_RCVD, SYN_RCVD | OPEN, OPEN | CLOSE_WAIT, CLOSE_WAIT => true
  | _, _ => false
  end.

(** The string the source uses for each state. *)
Definition State_str (s : State) : string :=
  match s with
  | CLOSED => "CLOSED"
  | LISTEN => "LISTEN"
  | SYN_SENT => "SYN-SENT"
  | SYN_RCVD => "SYN-RCVD"
  | OPEN => "OPEN"
  | CLOSE_WAIT => "CLOSE-WAIT"
  end.

(** A socket address [(host, port)]. *)
Definition address := (string * Z)%type.

Definition address_eqb (a b : address) : bool :=
  String.eqb (fst a) (fst b) && (snd a =? snd b).

(** [a != b] where [b] may be [None]. *)
Definition address_ne (a : address) (b : option address) : bool :=
  match b with
  | Some b' => negb (address_eqb a b')
  | None => true
  end.

(** The attributes of a connection object, the socket apart.  [SND_MAX],
    [RMAX_BUF] and [local_port] are not created by [__init__]: [None] there
    means that the attribute does not exist yet. *)
Record t := mk {
  remote_address : option address;
  state : State;
  SND_ISS : Z;
  SND_NXT : Z;
  SND_UNA : Z;
  RCV_CUR : Z;
  RCV_MAX : Z;
  data_buffer : bytes;
  source_port : option Z;
  dest_port : option Z;
  SND_MAX : option Z;
  RMAX_BUF : option Z;
  local_port : option Z
}.

(** [__init__], lines 7-29. *)
Definition init (remote_address : option address) (source_port dest_port : option Z) : t :=
  mk remote_address CLOSED 0 0 0 0 0 [] source_port dest_port None None None.

Definition set_state (v : State) (c : t) : t :=
  mk (remote_address c) v (SND_ISS c) (SND_NXT c) (SND_UNA c) (RCV_CUR c) (RCV_MAX c)
     (data_buffer c) (source_port c) (dest_port c) (SND_MAX c) (RMAX_BUF c) (local_port c).
Definition set_SND_ISS (v : Z) (c : t) : t :=
  mk (remote_address c) (state c) v (SND_NXT c) (SND_UNA c) (RCV_CUR c) (RCV_MAX c)
     (data_buffer c) (source_port c) (dest_port c) (SND_MAX c) (RMAX_BUF c) (local_port c).
Definition set_SND_NXT (v : Z) (c : t) : t :=
  mk (remote_address c) (state c) (SND_ISS c) v (SND_UNA c) (RCV_CUR c) (RCV_MAX c)
     (data_buffer c) (source_port c) (dest_port c) (SND_MAX c) (RMAX_BUF c) (local_port c).
Definition set_SND_UNA (v : Z) (c : t) : t :=
  mk (remote_address c) (state c) (SND_ISS c) (SND_NXT c) v (RCV_CUR c) (RCV_MAX c)
     (data_buffer c) (source_port c) (dest_port c) (SND_MAX c) (RMAX_BUF c) (local_port c).
Definition set_RCV_CUR (v : Z) (c : t) : t :=
  mk (remote_address c) (state c) (SND_ISS c) (SND_NXT c) (SND_UNA c) v (RCV_MAX c)
     (data_buffer c) (source_port c) (dest_port c) (SND_MAX c) (RMAX_BUF c) (local_port c).
Definition set_RCV_MAX (v : Z) (c : t) : t :=
  mk (remote_address c) (state c) (SND_ISS c) (SND_NXT c) (SND_UNA c) (RCV_CUR c) v
     (data_buffer c) (source_port c) (dest_port c) (SND_MAX c) (RMAX_BUF c) (local_port c).
Definition set_data_buffer (v : bytes) (c : t) : t :=
  mk (remote_address c) (state c) (SND_ISS c) (SND_NXT c) (SND_UNA c) (RCV_CUR c) (RCV_MAX c)
     v (source_port c) (dest_port c) (SND_MAX c) (RMAX_BUF c) (local_port c).
Definition set_source_port (v : option Z) (c : t) : t :=
  mk (remote_address c) (state c) (SND_ISS c) (SND_NXT c) (SND_UNA c) (RCV_CUR c) (RCV_MAX c)
     (data_buffer c) v (dest_port c) (SND_MAX c) (RMAX_BUF c) (local_port c).
Definition set_SND_MAX (v : option Z) (c : t) : t :=
  mk (remote_address c) (state c) (SND_ISS c) (SND_NXT c) (SND_UNA c) (RCV_CUR c) (RCV_MAX c)
     (data_buffer c) (source_port c) (dest_port c) v (RMAX_BUF c) (local_port c).
Definition set_RMAX_BUF (v : option Z) (c : t) : t :=
  mk (remote_address c) (state c) (SND_ISS c) (SND_NXT c) (SND_UNA c) (RCV_CUR c) (RCV_MAX c)
     (data_buffer c) (source_port c) (dest_port c) (SND_MAX c) v (local_port c).
Definition set_local_port (v : option Z) (c : t) : t :=
  mk (remote_address c) (state c) (SND_ISS c) (SND_NXT c) (SND_UNA c) (RCV_CUR c) (RCV_MAX c)
     (data_buffer c) (source_port c) (dest_port c) (SND_MAX c) (RMAX_BUF c) v.

(** *** The monad of the methods

    A method runs on the connection object together with the log of the
    datagrams handed to [self.socket.sendto], oldest first.  It ends with a
    value or with an exception; either way the state reached is kept.
    What the methods print is not modelled, and the socket is taken to
    accept every datagram passed to [sendto]. *)
Record machine := mkM {
  self : t;
  sent : list (bytes * option address)
}.

Definition M (A : Type) : Type := machine -> result A * machine.

Definition ret {A} (a : A) : M A := fun m => (Return a, m).
Definition raise {A} (e : exn) : M A := fun m => (Raise e, m).
Definition bind {A B} (x : M A) (k : A -> M B) : M B :=
  fun m =>
    match x m with
    | (Return a, m') => k a m'
    | (Raise e, m') => (Raise e, m')
    end.
Definition get : M t := fun m => (Return (self m), m).
Definition modify (f : t -> t) : M unit :=
  fun m => (Return tt, mkM (f (self m)) (sent m)).
Definition lift {A} (r : result A) : M A := fun m => (r, m).
Definition lift_struct {A} (o : option A) : M A :=
  fun m => (match o with Some a => Return a | None => Raise struct_error end, m).
(** Reading an attribute that may not exist yet. *)
Definition getattr {A} (f : t -> option A) : M A :=
  fun m => (match f (self m) with Some a => Return a | None => Raise AttributeError end, m).
(** [self.socket.sendto(b, self.remote_address)] *)
Definition sendto (b : bytes) : M unit :=
  fun m => (Return tt, mkM (self m) (sent m ++ [(b, remote_address (self m))])).

Declare Scope rdp_scope.
Delimit Scope rdp_scope with rdp.
Notation "x <- a ;; k" := (bind a (fun x => k))
  (at level 61, a at next level, right associativity) : rdp_scope.
Notation "a ;; k" := (bind a (fun _ => k))
  (at level 61, right associativity) : rdp_scope.
Local Open Scope rdp_scope.

(** What a method returns: [None], a string, a [bytes] object, a packet or
    an integer. *)
Inductive value :=
| VNone
| VStr (s : string)
| VBytes (b : bytes)
| VPacket (p : RDPPacket.t)
| VInt (z : Z).

(** [send_packet], lines 120-126. *)
Definition send_packet (packet : RDPPacket.t) : M value :=
  encoded_packet <- lift_struct (RDPPacket.encode packet) ;;
  sendto encoded_packet ;;
  ret VNone.

(** [allocate_local_port], lines 373-379. *)
Definition allocate_local_port : M value :=
  modify (set_source_port (Some 10000)) ;;
  ret (VInt 10000).

(** [send_ack], lines 139-146. *)
Definition send_ack (remote_port : option Z) : M value :=
  c <- get ;;
  let ack_packet :=
    RDPPacket.mk (source_port c) remote_port (SND_NXT c) (RCV_CUR c) []
                 false true false false false in
  send_packet ack_packet.

(** [send_syn_ack], lines 148-155. *)
Definition send_syn_ack (remote_port : option Z) : M value :=
  c <- get ;;
  let syn_ack_packet :=
    RDPPacket.mk (source_port c) remote_port (SND_ISS c) (RCV_CUR c) []
                 true true false false false in
  send_packet syn_ack_packet.

(** [send_rst], lines 311-317. *)
Definition send_rst : M value :=
  c <- get ;;
  let rst_packet :=
    RDPPacket.mk (source_port c) (dest_port c) (SND_NXT c) (RCV_CUR c) []
                 false false false true false in
  send_packet rst_packet.

(** [prepare_data_packet], lines 157-180. *)
Definition prepare_data_packet (data : bytes) : M RDPPacket.t :=
  c <- get ;;
  let seq_num := SND_NXT c in
  let ack_num := RCV_CUR c in
  let source_port := source_port c in
  let dest_port := dest_port c in
  ret (RDPPacket.mk source_port dest_port seq_num ack_num data
                    false false false false false).

(** The result of the last line of [open]. *)
Definition opened : M value :=
  c <- get ;;
  ret (VStr ("Connection opened in state " ++ State_str (state c))).

Definition or_default (v : option Z) (d : Z) : Z :=
  match v with Some z => z | None => d end.

(** [open], lines 32-70.  [iss] is the number that
    [generate_initial_sequence_number()] draws in this call. *)
Definition open (iss : Z) (passive : bool)
    (local_port remote_port snd_max rmax_buf : option Z) : M value :=
  c <- get ;;
  if negb (State_eqb (state c) CLOSED) then
    ret (VStr "Error - connection already open")
  else
    modify (set_SND_ISS iss) ;;
    modify (fun c => set_SND_NXT (SND_ISS c + 1) c) ;;
    modify (fun c => set_SND_UNA (SND_ISS c) c) ;;
    modify (set_SND_MAX (Some (or_default snd_max 10))) ;;
    modify (set_RMAX_BUF (Some (or_default rmax_buf 1024))) ;;
    if passive then
      match local_port with
      | None => ret (VStr "Error - local port not specified")
      | Some _ =>
          modify (set_state LISTEN) ;;
          opened
      end
    else
      match remote_port with
      | None => ret (VStr "Error - remote port not specified")
      | Some _ =>
          match local_port with
          | None => allocate_local_port
          | Some _ => ret VNone
          end ;;
          modify (set_state SYN_SENT) ;;
          c <- get ;;
          let syn_packet :=
            RDPPacket.mk (source_port c) remote_port (SND_ISS c) 0 []
                         true false false false false in
          send_packet syn_packet ;;
          opened
      end.

(** [close], lines 73-94. *)
Definition close : M value :=
  c <- get ;;
  if existsb (State_eqb (state c)) [LISTEN; SYN_RCVD; SYN_SENT] then
    send_rst ;;
    modify (set_state CLOSED) ;;
    ret (VStr "Connection closed from state: LISTEN/SYN-RCVD/SYN-SENT")
  else if State_eqb (state c) OPEN then
    send_rst ;;
    modify (set_state CLOSE_WAIT) ;;
    ret (VStr "Connection set to CLOSE-WAIT from state: OPEN")
  else
    ret (VStr "Error - connection not open or already closing").

(** [send], lines 96-118. *)
Definition send (data : bytes) : M value :=
  c <- get ;;
  if negb (State_eqb (state c) OPEN) then
    ret (VStr "Error - connection not open")
  else
    snd_max <- getattr SND_MAX ;;
    if Z.of_nat (length data) >? snd_max then
      ret (VStr "Error - data size exceeds maximum segment size")
    else if SND_NXT c >=? SND_UNA c + snd_max then
      ret (VStr "Error - send window is full, cannot send more data")
    else
      packet <- prepare_data_packet data ;;
      send_packet packet ;;
      modify (fun c => set_SND_NXT (SND_NXT c + Z.of_nat (length data)) c) ;;
      ret VNone.

(** [receive_packet], lines 128-137.  [dgram] is the pair that
    [self.socket.recvfrom(1024)] returns in this call, before the buffer
    size is applied. *)
Definition receive_packet (dgram : bytes * address) : M value :=
  let packet_bytes := firstn 1024 (fst dgram) in
  let addr := snd dgram in
  c <- get ;;
  if address_ne addr (remote_address c) then
    ret VNone
  else
    p <- lift (RDPPacket.call_decode [packet_bytes]) ;;
    ret (VPacket p).

(** [reset_connection], lines 364-371. *)
Definition reset_connection : M value :=
  modify (set_state CLOSED) ;;
  modify (set_SND_ISS 0) ;;
  modify (set_SND_NXT 0) ;;
  modify (set_SND_UNA 0) ;;
  modify (set_RCV_CUR 0) ;;
  modify (set_RCV_MAX 0) ;;
  modify (set_data_buffer []) ;;
  ret VNone.

(** [handle_syn_packet], lines 254-264. *)
Definition handle_syn_packet (packet : RDPPacket.t) : M value :=
  c <- get ;;
  if State_eqb (state c) LISTEN && RDPPacket.syn packet then
    modify (set_RCV_CUR (RDPPacket.seq_num packet)) ;;
    send_syn_ack (RDPPacket.source_port packet) ;;
    modify (set_state SYN_RCVD) ;;
    ret VNone
  else ret VNone.

(** [handle_syn_ack_packet], lines 266-276. *)
Definition handle_syn_ack_packet (packet : RDPPacket.t) : M value :=
  c <- get ;;
  if State_eqb (state c) SYN_SENT && RDPPacket.syn packet && RDPPacket.ack packet then
    modify (set_RCV_CUR (RDPPacket.seq_num packet)) ;;
    send_ack (RDPPacket.source_port packet) ;;
    modify (set_state OPEN) ;;
    ret VNone
  else ret VNone.

(** [handle_ack_packet], lines 278-286. *)
Definition handle_ack_packet (packet : RDPPacket.t) : M value :=
  c <- get ;;
  if State_eqb (state c) SYN_RCVD && RDPPacket.ack packet then
    modify (set_state OPEN) ;;
    ret VNone
  else ret VNone.

(** Truth value of a [bytes] object. *)
Definition nonempty (b : bytes) : bool :=
  match b with [] => false | _ :: _ => true end.

(** [handle_data_packet], lines 288-298. *)
Definition handle_data_packet (packet : RDPPacket.t) : M value :=
  c <- get ;;
  if State_eqb (state c) OPEN && nonempty (RDPPacket.data packet) then
    modify (fun c => set_data_buffer (data_buffer c ++ RDPPacket.data packet) c) ;;
    send_ack (RDPPacket.source_port packet)
  else ret VNone.

(** [handle_rst_packet], lines 300-309. *)
Definition handle_rst_packet (packet : RDPPacket.t) : M value :=
  c <- get ;;
  if State_eqb (state c) OPEN && RDPPacket.rst packet then
    modify (set_state CLOSED) ;;
    reset_connection
  else ret VNone.

(** The dispatch of [process_packet] on the current state, lines 224-251,
    for the packet bound to [decoded_packet]. *)
Definition dispatch (decoded_packet : RDPPacket.t) : M value :=
  c <- get ;;
  match state c with
  | LISTEN =>
      if RDPPacket.syn decoded_packet && negb (RDPPacket.ack decoded_packet)
      then handle_syn_packet decoded_packet else ret VNone
  | SYN_SENT =>
      if RDPPacket.syn decoded_packet && RDPPacket.ack decoded_packet
      then handle_syn_ack_packet decoded_packet else ret VNone
  | SYN_RCVD =>
      if RDPPacket.ack decoded_packet
      then handle_ack_packet decoded_packet else ret VNone
  | OPEN =>
      if nonempty (RDPPacket.data decoded_packet)
      then handle_data_packet decoded_packet
      else if RDPPacket.rst decoded_packet
      then handle_rst_packet decoded_packet else ret VNone
  | _ => ret VNone
  end ;;
  c <- get ;;
  ret (VPacket (RDPPacket.mk (source_port c) (dest_port c) (SND_NXT c) (RCV_CUR c)
                  (list_byte_of_string "Test response")
                  false false false false false)).

(** [process_packet], lines 208-251.  Line 222 is [packet.decode()] on the
    [RDPPacket] instance it was given: the static method gets no argument. *)
Definition process_packet (packet : RDPPacket.t) : M value :=
  decoded_packet <- lift (RDPPacket.call_decode []) ;;
  dispatch decoded_packet.

(** [receive], lines 183-206. *)
Definition receive (dgram : bytes * address) : M value :=
  c <- get ;;
  if negb (State_eqb (state c) OPEN) then
    ret (VStr "Error - connection not open")
  else
    incoming_packet <- receive_packet dgram ;;
    match incoming_packet with
    | VPacket p =>
        process_packet p ;;
        c <- get ;;
        if nonempty (data_buffer c) then
          let data := data_buffer c in
          modify (set_data_buffer []) ;;
          ret (VBytes data)
        else ret (VStr "No new data received")
    | _ => ret (VStr "No data to receive")
    end.

(** [str(n)] for an integer. *)
Definition str (n : Z) : string := NilZero.string_of_int (Z.to_int n).

(** [listen], lines 319-331.  [bind_error] is [Some e] when
    [self.socket.bind] raises the [socket.error] that prints as [e]. *)
Definition listen (bind_error : option string) (local_port : Z) : M value :=
  match bind_error with
  | None =>
      modify (set_local_port (Some local_port)) ;;
      modify (set_state LISTEN) ;;
      ret (VStr ("Listening on port " ++ str local_port))
  | Some e =>
      ret (VStr ("Error binding to port " ++ str local_port ++ ": " ++ e))
  end.

(** [handle_state_transition], lines 334-362. *)
Definition handle_state_transition (current_state event : string) : M value :=
  (if String.eqb current_state "LISTEN" then
     if String.eqb event "RECEIVE_SYN" then modify (set_state SYN_RCVD) else ret tt
   else if String.eqb current_state "SYN-SENT" then
     if String.eqb event "RECEIVE_SYN_ACK" then modify (set_state OPEN) else ret tt
   else if String.eqb current_state "SYN-RCVD" then
     if String.eqb event "RECEIVE_ACK" then modify (set_state OPEN) else ret tt
   else ret tt) ;;
  c <- get ;;
  ret (VStr ("Transitioned to state " ++ State_str (state c))).

(** One call of a method of the connection, with its arguments and with
    what the environment contributes to it. *)
Inductive call :=
| Open (iss : Z) (passive : bool) (local_port remote_port snd_max rmax_buf : option Z)
| Close
| Send (data : bytes)
| SendPacket (packet : RDPPacket.t)
| ReceivePacket (dgram : bytes * address)
| SendAck (remote_port : option Z)
| SendSynAck (remote_port : option Z)
| Receive (dgram : bytes * address)
| ProcessPacket (packet : RDPPacket.t)
| HandleSynPacket (packet : RDPPacket.t)
| HandleSynAckPacket (packet : RDPPacket.t)
| HandleAckPacket (packet : RDPPacket.t)
| HandleDataPacket (packet : RDPPacket.t)
| HandleRstPacket (packet : RDPPacket.t)
| SendRst
| Listen (bind_error : option string) (local_port : Z)
| HandleStateTransition (current_state event : string)
| ResetConnection
| AllocateLocalPort.

Definition run (k : call) : M value :=
  match k with
  | Open iss passive lp rp snd_max rmax_buf => open iss passive lp rp snd_max rmax_buf
  | Close => close
  | Send data => send data
  | SendPacket p => send_packet p
  | ReceivePacket d => receive_packet d
  | SendAck rp => send_ack rp
  | SendSynAck rp => send_syn_ack rp
  | Receive d => receive d
  | ProcessPacket p => process_packet p
  | HandleSynPacket p => handle_syn_packet p
  | HandleSynAckPacket p => handle_syn_ack_packet p
  | HandleAckPacket p => handle_ack_packet p
  | HandleDataPacket p => handle_data_packet p
  | HandleRstPacket p => handle_rst_packet p
  | SendRst => send_rst
  | Listen e lp => listen e lp
  | HandleStateTransition s e => handle_state_transition s e
  | ResetConnection => reset_connection
  | AllocateLocalPort => allocate_local_port
  end.

(** The machine after a sequence of calls, whatever each of them returns
    or raises. *)
Fixpoint run_all (ks : list call) (m : machine) : machine :=
  match ks with
  | [] => m
  | k :: rest => run_all rest (snd (run k m))
  end.

End RDPConnection.

(** ** Well-formed packets *)

Definition u16 (z : Z) : bool := (0 <=? z) && (z <? 65536).
Definition u32 (z : Z) : bool := (0 <=? z) && (z <? 4294967296).

Definition port_ok (port : option Z) : bool :=
  match port with
  | Some z => u16 z
  | None => false
  end.

(** A valid packet in the sense of the data model: 16-bit ports and 32-bit
    sequence and acknowledgement numbers; any flags, any payload. *)
Definition valid (p : RDPPacket.t) : bool :=
  port_ok (RDPPacket.source_port p) && port_ok (RDPPacket.dest_port p)
  && u32 (RDPPacket.seq_num p) && u32 (RDPPacket.ack_num p).

(** The packets that [encode] accepts: valid ones whose payload length fits
    the 16-bit field [compute_checksum] packs it in. *)
Definition encodable (p : RDPPacket.t) : bool :=
  valid p && (RDPPacket.data_length p <? 65536).

(** ** The checksum in the words of the specification *)

(** One folding step: the carry out of bit 16 is added to the low 16 bits. *)
Definition fold_once (s : Z) : Z := Z.shiftr s 16 + Z.land s 0xffff.

(** A sum has a carry when it does not fit 16 bits. *)
Definition has_carry (s : Z) : Prop := 65536 <= s.

Definition has_carry_dec (s : Z) : {has_carry s} + {~ has_carry s} :=
  Z_le_dec 65536 s.

(** Fold the carry back until no carry remains. *)
#[local] Obligation Tactic := idtac.
Equations? fold_carry (s : Z) : Z by wf (Z.to_nat s) lt :=
  fold_carry s with has_carry_dec s => {
    | left _ := fold_carry (fold_once s);
    | right _ := s }.
Proof.
  unfold has_carry in *. unfold fold_once.
  rewrite Z.shiftr_div_pow2 by lia.
  change 0xffff with (Z.ones 16). rewrite Z.land_ones by lia.
  change (2 ^ 16) with 65536.
  assert (0 <= s / 65536 + s mod 65536 < s); [ | lia ].
  pose proof (Z.div_mod s 65536 ltac:(lia)).
  pose proof (Z.mod_pos_bound s 65536 ltac:(lia)).
  assert (0 < s / 65536) by (apply Z.div_str_pos; lia).
  lia.
Qed.

(** The bitwise complement of the low 16 bits. *)
Definition complement16 (s : Z) : Z := Z.lxor (Z.land s 0xffff) 0xffff.

(** The payload with one trailing zero byte when its length is odd. *)
Definition pad_trailing (payload : bytes) : bytes :=
  if Nat.odd (length payload) then payload ++ [x00] else payload.

(** A byte string of even length read as big-endian 16-bit words. *)
Fixpoint be16_words (bs : bytes) : list Z :=
  match bs with
  | b1 :: b2 :: rest => from_bytes_big [b1; b2] :: be16_words rest
  | _ => []
  end.

Definition sum_list (l : list Z) : Z := fold_right Z.add 0 l.

(** The checksum as section 4.1 of the specification describes it. *)
Definition spec_checksum (source_port dest_port data_length seq_num ack_num : Z)
    (payload : bytes) : Z :=
  complement16
    (fold_carry (source_port + dest_port + data_length + seq_num + ack_num
                 + sum_list (be16_words (pad_trailing payload)))).

(** The payload words as [compute_checksum] reads them: a last byte without
    a partner counts as its own value, as if the zero byte came before it. *)
Fixpoint be16_words_low_tail (bs : bytes) : list Z :=
  match bs with
  | [] => []
  | [b] => [from_bytes_big [b]]
  | b1 :: b2 :: rest => from_bytes_big [b1; b2] :: be16_words_low_tail rest
  end.

(** The description of the specification with that reading of an odd
    payload. *)
Definition low_tail_checksum (source_port dest_port data_length seq_num ack_num : Z)
    (payload : bytes) : Z :=
  complement16
    (fold_carry (source_port + dest_port + data_length + seq_num + ack_num
                 + sum_list (be16_words_low_tail payload))).

(** ** The vocabulary of the specification for the connection *)

(** The named errors of the specification are the strings the methods
    return. *)
Definition AlreadyOpen : string := "Error - connection already open".
Definition MissingLocalPort : string := "Error - local port not specified".
Definition MissingRemotePort : string := "Error - remote port not specified".
Definition NotOpen : string := "Error - connection not open".
Definition SegmentTooLarge : string := "Error - data size exceeds maximum segment size".
Definition WindowFull : string := "Error - send window is full, cannot send more data".
Definition NotOpenOrClosing : string := "Error - connection not open or already closing".

(** The two results of [receive] that stand for "no data". *)
Definition NoPacket : string := "No data to receive".
Definition NoNewData : string := "No new data received".




(** What the dispatch of [process_packet] tests before it hands a packet to
    a handler (lines 226, 232, 238, 244 and 247): [syn and not ack] in
    LISTEN, [syn and ack] in SYN-SENT, [ack] in SYN-RCVD, [data], else
    [rst], in OPEN; CLOSED and CLOSE-WAIT have no branch. *)
Definition handled (s : RDPConnection.State) (p : RDPPacket.t) : bool :=
  match s with
  | RDPConnection.LISTEN => RDPPacket.syn p && negb (RDPPacket.ack p)
  | RDPConnection.SYN_SENT => RDPPacket.syn p && RDPPacket.ack p
  | RDPConnection.SYN_RCVD => RDPPacket.ack p
  | RDPConnection.OPEN => RDPConnection.nonempty (RDPPacket.data p) || RDPPacket.rst p
  | RDPConnection.CLOSED | RDPConnection.CLOSE_WAIT => false
  end.


(** The invariant of the send counters. *)
Definition window_inv (c : RDPConnection.t) : Prop :=
  RDPConnection.SND_UNA c <= RDPConnection.SND_NXT c.

(** The packets the methods build. *)
Definition data_packet (c : RDPConnection.t) (data : bytes) : RDPPacket.t :=
  RDPPacket.mk (RDPConnection.source_port c) (RDPConnection.dest_port c)
    (RDPConnection.SND_NXT c) (RDPConnection.RCV_CUR c) data
    false false false false false.

Definition rst_packet (c : RDPConnection.t) : RDPPacket.t :=
  RDPPacket.mk (RDPConnection.source_port c) (RDPConnection.dest_port c)
    (RDPConnection.SND_NXT c) (RDPConnection.RCV_CUR c) []
    false false false true false.

(** ** Sample inputs *)

(** A data packet carrying the three bytes of ["hi!"], no flag set. *)
Definition sample_data_packet : RDPPacket.t :=
  RDPPacket.mk (Some 10000) (Some 9000) 7 3 [x68; x69; x21]
    false false false false false.

(** A header of 22 bytes that declares five bytes of payload, followed by
    none. *)
Definition sample_short_datagram : bytes :=
  [x10; x09; x27; x10; x23; x28; x00; x00; x00; x05; x00; x00; x00; x07;
   x00; x00; x00; x03; x00; x00; x00; x00].

Definition sample_peer : RDPConnection.address := ("127.0.0.1"%string, 9000).
Definition sample_stranger : RDPConnection.address := ("127.0.0.1"%string, 9001).

(** A connection in state OPEN after an active open with the default
    sizes and the initial sequence number 41. *)
Definition sample_open_connection : RDPConnection.t :=
  RDPConnection.mk (Some sample_peer) RDPConnection.OPEN 41 42 41 17 0 []
    (Some 10000) (Some 9000) (Some 10) (Some 1024) None.

Definition sample_open_machine : RDPConnection.machine :=
  RDPConnection.mkM sample_open_connection [].

(** A connection in state OPEN whose [open] recorded a maximum segment
    size of 70000 bytes. *)
Definition sample_wide_connection : RDPConnection.t :=
  RDPConnection.mk (Some sample_peer) RDPConnection.OPEN 41 42 41 17 0 []
    (Some 10000) (Some 9000) (Some 70000) (Some 1024) None.


(** A connection as [__init__] leaves it. *)
Definition sample_closed_connection : RDPConnection.t :=
  RDPConnection.init (Some sample_peer) (Some 10000) (Some 9000).

(** An RST packet without payload. *)
Definition sample_rst_packet : RDPPacket.t :=
  RDPPacket.mk (Some 9000) (Some 10000) 17 42 [] false false false true false.

(** The connection that [server.py] builds (line 15): no remote address, no
    destination port. *)
Definition sample_server_connection : RDPConnection.t :=
  RDPConnection.init None (Some 12345) None.





(** ** Further vocabulary *)

(** The numbers [generate_initial_sequence_number()] can return
    (src/utility_functions.py, line 9: [random.randint(0, 10000)], both ends
    included). *)
Definition initial_sequence_number (iss : Z) : Prop := 0 <= iss <= 10000.

(** The same packet with another NUL flag. *)
Definition with_nul (nul : bool) (p : RDPPacket.t) : RDPPacket.t :=
  RDPPacket.mk (RDPPacket.source_port p) (RDPPacket.dest_port p)
    (RDPPacket.seq_num p) (RDPPacket.ack_num p) (RDPPacket.data p)
    (RDPPacket.syn p) (RDPPacket.ack p) (RDPPacket.eack p) (RDPPacket.rst p) nul.

(** The same packet with another payload. *)
Definition with_data (data : bytes) (p : RDPPacket.t) : RDPPacket.t :=
  RDPPacket.mk (RDPPacket.source_port p) (RDPPacket.dest_port p)
    (RDPPacket.seq_num p) (RDPPacket.ack_num p) data
    (RDPPacket.syn p) (RDPPacket.ack p) (RDPPacket.eack p) (RDPPacket.rst p)
    (RDPPacket.nul p).

(** The packet every encoded packet decodes to: the flags are lost, SYN and
    RST come out set. *)
Definition as_decoded (p : RDPPacket.t) : RDPPacket.t :=
  RDPPacket.mk (RDPPacket.source_port p) (RDPPacket.dest_port p)
    (RDPPacket.seq_num p) (RDPPacket.ack_num p) (RDPPacket.data p)
    true false false true false.

(** The checksum field of a datagram: the four bytes at offset 18. *)
Definition checksum_field (packet_bytes : bytes) : Z :=
  from_bytes_big (firstn 4 (skipn 18 packet_bytes)).

(** The calls that assign the send counters afresh: [open], and the two
    ways into [reset_connection]. *)
Definition resets_counters (k : RDPConnection.call) : bool :=
  match k with
  | RDPConnection.Open _ _ _ _ _ _
  | RDPConnection.ResetConnection
  | RDPConnection.HandleRstPacket _ => true
  | _ => false
  end.

Definition is_open_call (k : RDPConnection.call) : bool :=
  match k with
  | RDPConnection.Open _ _ _ _ _ _ => true
  | _ => false
  end.

(** The calls that assign the state without looking at it. *)
Definition assigns_state (k : RDPConnection.call) : bool :=
  match k with
  | RDPConnection.Listen _ _
  | RDPConnection.HandleStateTransition _ _
  | RDPConnection.ResetConnection => true
  | _ => false
  end.

(** The bound that the checks of [send] keep on the sequence numbers in
    flight. *)
Definition window_bound (c : RDPConnection.t) : Prop :=
  RDPConnection.SND_NXT c
  <= RDPConnection.SND_UNA c
     + Z.max 1 (2 * RDPConnection.or_default (RDPConnection.SND_MAX c) 0 - 1).

(** The connection after the assignments of lines 47-53 of [open]. *)
Definition with_open_counters (iss : Z) (snd_max rmax_buf : option Z)
    (c : RDPConnection.t) : RDPConnection.t :=
  RDPConnection.set_RMAX_BUF (Some (RDPConnection.or_default rmax_buf 1024))
    (RDPConnection.set_SND_MAX (Some (RDPConnection.or_default snd_max 10))
       (RDPConnection.set_SND_UNA iss
          (RDPConnection.set_SND_NXT (iss + 1) (RDPConnection.set_SND_ISS iss c)))).

(** The packets of the handshake and the acknowledgement of data. *)
Definition syn_packet (source_port : option Z) (remote_port iss : Z) : RDPPacket.t :=
  RDPPacket.mk source_port (Some remote_port) iss 0 [] true false false false false.

Definition syn_ack_packet (c : RDPConnection.t) (remote_port : option Z) : RDPPacket.t :=
  RDPPacket.mk (RDPConnection.source_port c) remote_port
    (RDPConnection.SND_ISS c) (RDPConnection.RCV_CUR c) []
    true true false false false.

Definition ack_packet (c : RDPConnection.t) (remote_port : option Z) : RDPPacket.t :=
  RDPPacket.mk (RDPConnection.source_port c) remote_port
    (RDPConnection.SND_NXT c) (RDPConnection.RCV_CUR c) []
    false true false false false.

(** The connection after [reset_connection]. *)
Definition reset (c : RDPConnection.t) : RDPConnection.t :=
  RDPConnection.mk (RDPConnection.remote_address c) RDPConnection.CLOSED 0 0 0 0 0 []
    (RDPConnection.source_port c) (RDPConnection.dest_port c)
    (RDPConnection.SND_MAX c) (RDPConnection.RMAX_BUF c) (RDPConnection.local_port c).

(** A connection in state SYN-SENT after an active open. *)
Definition sample_syn_sent_connection : RDPConnection.t :=
  RDPConnection.mk (Some sample_peer) RDPConnection.SYN_SENT 41 42 41 0 0 []
    (Some 10000) (Some 9000) (Some 10) (Some 1024) None.

(** A SYN packet from the peer. *)
Definition sample_syn_packet : RDPPacket.t :=
  RDPPacket.mk (Some 10000) (Some 9000) 77 0 [] true false false false false.

(** A SYN+ACK packet from the peer. *)
Definition sample_syn_ack_packet : RDPPacket.t :=
  RDPPacket.mk (Some 9000) (Some 10000) 77 41 [] true true false false false.

(** An ACK packet without payload. *)
Definition sample_ack_packet : RDPPacket.t :=
  RDPPacket.mk (Some 9000) (Some 10000) 78 42 [] false true false false false.

(** * Properties *)

(** ** Bytes and big-endian integers *)

Section BigEndian.

Lemma byte_val_range (b : byte) : 0 <= byte_val b < 256.
Proof.
  unfold byte_val. pose proof (Byte.to_N_bounded b). lia.
Qed.

Lemma byte_val_of_Z (z : Z) : byte_val (byte_of_Z z) = z mod 256.
Proof.
  unfold byte_val, byte_of_Z.
  pose proof (Z.mod_pos_bound z 256 ltac:(lia)) as Hr.
  destruct (Byte.of_N (Z.to_N (z mod 256))) as [b|] eqn:E.
  - apply Byte.to_of_N in E. rewrite E. lia.
  - apply Byte.of_N_None_iff in E. lia.
Qed.

Lemma byte_of_val (b : byte) : byte_of_Z (byte_val b) = b.
Proof.
  unfold byte_of_Z. rewrite Z.mod_small by apply byte_val_range.
  unfold byte_val. rewrite N2Z.id, Byte.of_to_N. reflexivity.
Qed.

Lemma to_bytes_big_length (n : nat) (v : Z) : length (to_bytes_big n v) = n.
Proof. induction n; simpl; congruence. Qed.

Lemma from_bytes_big_range (bs : bytes) :
  0 <= from_bytes_big bs < 256 ^ Z.of_nat (length bs).
Proof.
  induction bs as [|b rest IH].
  - simpl. lia.
  - cbn [from_bytes_big length]. rewrite Nat2Z.inj_succ, Z.pow_succ_r by lia.
    pose proof (byte_val_range b). nia.
Qed.

Lemma from_to_bytes_big (n : nat) (v : Z) :
  from_bytes_big (to_bytes_big n v) = v mod 256 ^ Z.of_nat n.
Proof.
  induction n as [|k IH].
  - simpl. now rewrite Z.mod_1_r.
  - cbn [to_bytes_big from_bytes_big].
    rewrite to_bytes_big_length, byte_val_of_Z, IH.
    rewrite Nat2Z.inj_succ, Z.pow_succ_r by lia.
    rewrite (Z.mul_comm 256), Z.rem_mul_r by lia. lia.
Qed.

Lemma from_to_bytes_big_small (n : nat) (v : Z) :
  0 <= v < 256 ^ Z.of_nat n -> from_bytes_big (to_bytes_big n v) = v.
Proof. intros. rewrite from_to_bytes_big. now apply Z.mod_small. Qed.

Lemma from_bytes_big_1 (a : byte) : from_bytes_big [a] = byte_val a.
Proof. cbn. lia. Qed.

Lemma from_bytes_big_2 (a b : byte) :
  from_bytes_big [a; b] = byte_val a * 256 + byte_val b.
Proof. cbn. lia. Qed.

End BigEndian.

(** ** [struct.pack] and [struct.unpack] *)

Section Struct.

Lemma pack1_Some (f : struct.fmt) (v : option Z) (b : bytes) :
  struct.pack1 f v = Some b ->
  exists z, v = Some z /\ 0 <= z < 256 ^ Z.of_nat (struct.size f)
            /\ b = to_bytes_big (struct.size f) z.
Proof.
  unfold struct.pack1. destruct v as [z|]; [|discriminate].
  destruct (0 <=? z) eqn:E1; destruct (z <? _) eqn:E2; simpl; try discriminate.
  intros [= <-]. exists z. repeat split; lia.
Qed.

Lemma pack_length fs : forall vs bs,
  struct.pack fs vs = Some bs -> length bs = struct.calcsize fs.
Proof.
  induction fs as [|f fs IH]; intros [|v vs] bs; simpl; try discriminate.
  - now intros [= <-].
  - destruct (struct.pack1 f v) as [b|] eqn:E1; [|discriminate].
    destruct (struct.pack fs vs) as [bs'|] eqn:E2; [|discriminate].
    intros [= <-]. apply pack1_Some in E1 as (z & _ & _ & ->).
    rewrite length_app, to_bytes_big_length. f_equal. eauto.
Qed.

Lemma unpack_fields_pack fs : forall vs bs,
  struct.pack fs vs = Some bs -> map Some (struct.unpack_fields fs bs) = vs.
Proof.
  induction fs as [|f fs IH]; intros [|v vs] bs; simpl; try discriminate.
  - reflexivity.
  - destruct (struct.pack1 f v) as [b|] eqn:E1; [|discriminate].
    destruct (struct.pack fs vs) as [bs'|] eqn:E2; [|discriminate].
    intros [= <-]. apply pack1_Some in E1 as (z & -> & Hz & ->).
    rewrite firstn_app, skipn_app, to_bytes_big_length, Nat.sub_diag.
    rewrite firstn_all2, skipn_all2 by (rewrite to_bytes_big_length; lia).
    simpl. rewrite app_nil_r, from_to_bytes_big_small by exact Hz.
    f_equal. eauto.
Qed.

(** Unpacking what was packed gives the packed integers back. *)
Lemma unpack_pack fs zs bs :
  struct.pack fs (map Some zs) = Some bs -> struct.unpack fs bs = Some zs.
Proof.
  intros Hp. unfold struct.unpack.
  rewrite (pack_length _ _ _ Hp), Nat.eqb_refl.
  apply unpack_fields_pack in Hp. f_equal.
  revert Hp. generalize (struct.unpack_fields fs bs). clear.
  induction zs as [|z zs IH]; intros [|y l]; simpl; try discriminate; auto.
  intros [= -> H]. f_equal. auto.
Qed.

Lemma unpack_fields_length fs bs : length (struct.unpack_fields fs bs) = length fs.
Proof. revert bs. induction fs; simpl; intros; auto. Qed.

Lemma unpack_None fs bs :
  struct.unpack fs bs = None <-> length bs <> struct.calcsize fs.
Proof.
  unfold struct.unpack. destruct (Nat.eqb_spec (length bs) (struct.calcsize fs)).
  - split; [discriminate | contradiction].
  - split; auto.
Qed.

End Struct.

(** ** One's-complement folding *)

Section Folding.

Lemma shiftr16 (s : Z) : Z.shiftr s 16 = s / 65536.
Proof. rewrite Z.shiftr_div_pow2 by lia. reflexivity. Qed.

Lemma land16 (s : Z) : Z.land s 0xffff = s mod 65536.
Proof. change 0xffff with (Z.ones 16). rewrite Z.land_ones by lia. reflexivity. Qed.

Lemma lnot_land16 (s : Z) : Z.land (Z.lnot s) 0xffff = 65535 - s mod 65536.
Proof.
  rewrite land16. unfold Z.lnot. rewrite <- Z.sub_1_r.
  replace (- s - 1) with (65535 - s + (-1) * 65536) by lia.
  rewrite Z.mod_add by lia.
  rewrite Zminus_mod, (Z.mod_small 65535) by lia.
  pose proof (Z.mod_pos_bound s 65536 ltac:(lia)).
  apply Z.mod_small. lia.
Qed.

Lemma complement16_small (s : Z) : 0 <= s < 65536 -> complement16 s = 65535 - s.
Proof.
  intros Hs. unfold complement16.
  rewrite land16, Z.mod_small by lia.
  rewrite <- (Z.mod_small s 65536) at 2 by lia.
  rewrite <- lnot_land16.
  apply Z.bits_inj'. intros n Hn.
  rewrite Z.lxor_spec, Z.land_spec, Z.lnot_spec by lia.
  change 0xffff with (Z.ones 16).
  destruct (Z.ltb_spec n 16).
  - rewrite Z.ones_spec_low by lia. now rewrite xorb_true_r, andb_true_r.
  - rewrite Z.ones_spec_high by lia.
    rewrite xorb_false_r, andb_false_r.
    rewrite <- (Z.mod_small s (2 ^ 16)) by (change (2 ^ 16) with 65536; lia).
    apply Z.mod_pow2_bits_high. lia.
Qed.

Lemma fold_carry_step (s : Z) :
  fold_carry s = if s <? 65536 then s else fold_carry (s / 65536 + s mod 65536).
Proof.
  rewrite fold_carry_equation_1 at 1.
  unfold fold_carry_unfold_clause_1, fold_once, has_carry_dec.
  rewrite shiftr16, land16.
  destruct (Z_le_dec 65536 s) as [Hge|Hlt];
    destruct (Z.ltb_spec s 65536); (reflexivity || lia).
Qed.

(** Folding until no carry remains keeps the residue modulo 65535, and
    gives zero for zero only. *)
Lemma fold_carry_spec (s : Z) :
  0 <= s -> fold_carry s = if s =? 0 then 0 else (s - 1) mod 65535 + 1.
Proof.
  intros Hs. generalize Hs. pattern s. apply Z_lt_induction; [|exact Hs].
  clear. intros s IH Hs.
  rewrite fold_carry_step.
  destruct (Z.ltb_spec s 65536) as [Hlt|Hge].
  - destruct (Z.eqb_spec s 0); [lia|].
    destruct (Z.eq_dec s 65535) as [->|]; [reflexivity|].
    rewrite Z.mod_small; lia.
  - pose proof (Z.div_mod s 65536 ltac:(lia)) as Hdm.
    pose proof (Z.mod_pos_bound s 65536 ltac:(lia)) as Hm.
    assert (0 < s / 65536) as Hq by (apply Z.div_str_pos; lia).
    rewrite IH by lia.
    destruct (Z.eqb_spec (s / 65536 + s mod 65536) 0); [lia|].
    destruct (Z.eqb_spec s 0); [lia|].
    f_equal.
    replace (s - 1) with (s / 65536 + s mod 65536 - 1 + (s / 65536) * 65535) by lia.
    now rewrite Z.mod_add by lia.
Qed.

Lemma fold_carry_range (s : Z) : 0 <= s -> 0 <= fold_carry s < 65536.
Proof.
  intros Hs. rewrite fold_carry_spec by exact Hs.
  destruct (Z.eqb_spec s 0); [lia|].
  pose proof (Z.mod_pos_bound (s - 1) 65535 ltac:(lia)). lia.
Qed.

(** A sum and the same sum with a multiple of 65535 moved out of a
    non-zero part fold to the same word. *)
Lemma fold_carry_congr (a k : Z) :
  0 <= a -> 0 <= k -> (a = 0 -> k = 0) ->
  fold_carry (a + 65535 * k) = fold_carry a.
Proof.
  intros Ha Hk H0. rewrite !fold_carry_spec by lia.
  destruct (Z.eqb_spec a 0) as [->|Hn].
  - rewrite (H0 eq_refl). reflexivity.
  - destruct (Z.eqb_spec (a + 65535 * k) 0); [lia|].
    f_equal. replace (a + 65535 * k - 1) with (a - 1 + k * 65535) by lia.
    now rewrite Z.mod_add by lia.
Qed.

(** The two folding steps of [compute_checksum] (lines 133-135) remove
    every carry of a sum below [2 ^ 32]. *)
Lemma two_folds (s : Z) :
  0 <= s < 4294967296 ->
  let s1 := Z.shiftr s 16 + Z.land s 0xffff in
  let s2 := Z.shiftr s1 16 + s1 in
  Z.land (Z.lnot s2) 0xffff = complement16 (fold_carry s).
Proof.
  intros Hs s1 s2.
  rewrite complement16_small by (apply fold_carry_range; lia).
  rewrite lnot_land16. f_equal.
  subst s2 s1. rewrite !shiftr16, !land16.
  pose proof (Z.div_mod s 65536 ltac:(lia)) as Hdm.
  pose proof (Z.mod_pos_bound s 65536 ltac:(lia)) as Hm.
  assert (0 <= s / 65536 < 65536) as Hq
      by (split; [apply Z.div_pos | apply Z.div_lt_upper_bound]; lia).
  set (s1 := s / 65536 + s mod 65536) in *.
  assert (fold_carry s = fold_carry s1) as ->.
  { rewrite (fold_carry_step s).
    destruct (Z.ltb_spec s 65536); [|reflexivity].
    replace s1 with s by (subst s1; rewrite Z.div_small, Z.mod_small; lia).
    rewrite fold_carry_step.
    destruct (Z.ltb_spec s 65536); [reflexivity | lia]. }
  rewrite (fold_carry_step s1).
  destruct (Z.ltb_spec s1 65536) as [Hlt|Hge].
  - rewrite (Z.div_small s1) by lia. rewrite Z.mod_small; lia.
  - assert (s1 / 65536 = 1) as Hq1
        by (symmetry; apply (Z.div_unique s1 65536 1 (s1 - 65536)); lia).
    assert (s1 mod 65536 = s1 - 65536) as Hr1
        by (symmetry; apply (Z.mod_unique s1 65536 1 (s1 - 65536)); lia).
    rewrite Hq1, Hr1.
    rewrite fold_carry_step.
    destruct (Z.ltb_spec (1 + (s1 - 65536)) 65536); [|lia].
    replace (1 + s1) with (1 + (s1 - 65536) + 1 * 65536) by lia.
    rewrite Z.mod_add by lia. apply Z.mod_small. lia.
Qed.

End Folding.

(** ** The checksum *)

Section Checksum.

Lemma pack1_ok (f : struct.fmt) (z : Z) :
  0 <= z < 256 ^ Z.of_nat (struct.size f) ->
  struct.pack1 f (Some z) = Some (to_bytes_big (struct.size f) z).
Proof.
  intros Hz. unfold struct.pack1.
  destruct (Z.leb_spec 0 z); [|lia].
  destruct (Z.ltb_spec z (256 ^ Z.of_nat (struct.size f))); [reflexivity | lia].
Qed.

Lemma pack1_None (f : struct.fmt) (v : option Z) :
  struct.pack1 f v = None <->
  match v with
  | Some z => ~ (0 <= z < 256 ^ Z.of_nat (struct.size f))
  | None => True
  end.
Proof.
  unfold struct.pack1. destruct v as [z|]; [|tauto].
  destruct (Z.leb_spec 0 z); destruct (Z.ltb_spec z (256 ^ Z.of_nat (struct.size f)));
    simpl; split; intros; (discriminate || lia || auto).
Qed.

Lemma u16_true (z : Z) : u16 z = true <-> 0 <= z < 65536.
Proof. unfold u16. rewrite andb_true_iff, Z.leb_le, Z.ltb_lt. tauto. Qed.

Lemma u32_true (z : Z) : u32 z = true <-> 0 <= z < 4294967296.
Proof. unfold u32. rewrite andb_true_iff, Z.leb_le, Z.ltb_lt. tauto. Qed.

Lemma port_ok_true (port : option Z) :
  port_ok port = true <-> exists z, port = Some z /\ 0 <= z < 65536.
Proof.
  destruct port as [z|]; simpl.
  - rewrite u16_true. split; [eauto | intros (? & [= <-] & ?); auto].
  - split; [discriminate | intros (? & ? & _); discriminate].
Qed.

Lemma encodable_true (p : RDPPacket.t) :
  encodable p = true <->
  exists sp dp,
    RDPPacket.source_port p = Some sp /\ RDPPacket.dest_port p = Some dp /\
    0 <= sp < 65536 /\ 0 <= dp < 65536 /\
    0 <= RDPPacket.seq_num p < 4294967296 /\
    0 <= RDPPacket.ack_num p < 4294967296 /\
    0 <= RDPPacket.data_length p < 65536.
Proof.
  unfold encodable, valid.
  rewrite !andb_true_iff, !port_ok_true, !u32_true, Z.ltb_lt.
  unfold RDPPacket.data_length. split.
  - intros [[[[(sp & ? & ?) (dp & ? & ?)] ?] ?] ?]. exists sp, dp.
    repeat split; auto; lia.
  - intros (sp & dp & ? & ? & ? & ? & ? & ? & ?).
    repeat split; eauto; lia.
Qed.

Lemma sum_words_to_bytes_2 (acc v : Z) (rest : bytes) :
  0 <= v < 65536 ->
  RDPPacket.sum_words acc (to_bytes_big 2 v ++ rest) = RDPPacket.sum_words (acc + v) rest.
Proof.
  intros Hv. cbn [to_bytes_big app RDPPacket.sum_words].
  rewrite from_bytes_big_2, !byte_val_of_Z.
  change (256 ^ Z.of_nat 1) with 256. change (256 ^ Z.of_nat 0) with 1.
  destruct rest as [|? ?]; [f_equal|f_equal]; rewrite Z.div_1_r;
    pose proof (Z.div_mod v 256 ltac:(lia));
    pose proof (Z.mod_pos_bound v 256 ltac:(lia));
    rewrite (Z.mod_small (v / 256)) by
      (split; [apply Z.div_pos | apply Z.div_lt_upper_bound]; lia); lia.
Qed.

Lemma byte_of_Z_congr (a b : Z) : a mod 256 = b mod 256 -> byte_of_Z a = byte_of_Z b.
Proof. unfold byte_of_Z. now intros ->. Qed.

Lemma to_bytes_big_4 (v : Z) :
  0 <= v < 4294967296 ->
  to_bytes_big 4 v = to_bytes_big 2 (v / 65536) ++ to_bytes_big 2 (v mod 65536).
Proof.
  intros Hv. cbn [to_bytes_big app].
  change (256 ^ Z.of_nat 3) with 16777216.
  change (256 ^ Z.of_nat 2) with 65536.
  change (256 ^ Z.of_nat 1) with 256. change (256 ^ Z.of_nat 0) with 1.
  repeat (f_equal; try (apply byte_of_Z_congr; Z.div_mod_to_equations; lia)).
Qed.

Lemma sum_words_to_bytes_4 (acc v : Z) (rest : bytes) :
  0 <= v < 4294967296 ->
  RDPPacket.sum_words acc (to_bytes_big 4 v ++ rest)
  = RDPPacket.sum_words (acc + v / 65536 + v mod 65536) rest.
Proof.
  intros Hv. rewrite to_bytes_big_4 by exact Hv. rewrite <- app_assoc.
  rewrite !sum_words_to_bytes_2; [reflexivity | |].
  - apply Z.mod_pos_bound. lia.
  - split; [apply Z.div_pos | apply Z.div_lt_upper_bound]; lia.
Qed.

Lemma list_pair_ind {A : Type} (P : list A -> Prop) :
  P [] -> (forall a, P [a]) -> (forall a b l, P l -> P (a :: b :: l)) ->
  forall l, P l.
Proof.
  intros H0 H1 H2 l.
  enough (P l /\ forall a, P (a :: l)) by tauto.
  induction l as [|b l [IH1 IH2]]; split; auto.
Qed.

Lemma sum_words_low_tail (x : bytes) : forall acc,
  RDPPacket.sum_words acc x = acc + sum_list (be16_words_low_tail x).
Proof.
  induction x as [| a | a b l IH] using list_pair_ind; intros acc.
  - simpl. lia.
  - cbn [RDPPacket.sum_words be16_words_low_tail sum_list fold_right]. lia.
  - cbn [RDPPacket.sum_words be16_words_low_tail sum_list fold_right].
    rewrite IH. unfold sum_list. lia.
Qed.

Lemma sum_low_tail_bound (x : bytes) :
  0 <= sum_list (be16_words_low_tail x) <= 65535 * ((Z.of_nat (length x) + 1) / 2).
Proof.
  induction x as [| a | a b l IH] using list_pair_ind.
  - simpl. lia.
  - cbn [be16_words_low_tail sum_list fold_right length].
    rewrite from_bytes_big_1. pose proof (byte_val_range a).
    change ((Z.of_nat 1 + 1) / 2) with 1. lia.
  - cbn [be16_words_low_tail sum_list fold_right].
    rewrite from_bytes_big_2.
    pose proof (byte_val_range a). pose proof (byte_val_range b).
    fold (sum_list (be16_words_low_tail l)).
    replace (Z.of_nat (length (a :: b :: l)) + 1)
      with (Z.of_nat (length l) + 1 + 1 * 2) by (cbn [length]; lia).
    rewrite Z.div_add by lia. lia.
Qed.

(** What [compute_checksum] returns on a packet it can pack. *)
Lemma compute_checksum_encodable (p : RDPPacket.t) (sp dp : Z) :
  RDPPacket.source_port p = Some sp ->
  RDPPacket.dest_port p = Some dp ->
  encodable p = true ->
  RDPPacket.compute_checksum p
  = Some (low_tail_checksum sp dp (RDPPacket.data_length p) (RDPPacket.seq_num p)
            (RDPPacket.ack_num p) (RDPPacket.data p)).
Proof.
  intros Hsp Hdp He.
  apply encodable_true in He as (sp' & dp' & Hsp' & Hdp' & Rsp & Rdp & Rseq & Rack & Rlen).
  rewrite Hsp in Hsp'. rewrite Hdp in Hdp'.
  injection Hsp' as <-. injection Hdp' as <-.
  unfold RDPPacket.compute_checksum. rewrite Hsp, Hdp.
  cbn [struct.pack].
  rewrite !pack1_ok by (cbn [struct.size]; first
    [ change (256 ^ Z.of_nat 2) with 65536; assumption
    | change (256 ^ Z.of_nat 4) with 4294967296; assumption ]).
  cbn [struct.size]. cbv zeta.
  rewrite !sum_words_to_bytes_2, !sum_words_to_bytes_4 by assumption.
  cbn [RDPPacket.sum_words]. rewrite sum_words_low_tail.
  set (w := sum_list (be16_words_low_tail (RDPPacket.data p))).
  set (len := RDPPacket.data_length p) in *.
  set (seq := RDPPacket.seq_num p) in *. set (ack := RDPPacket.ack_num p) in *.
  assert (0 <= w <= 65535 * 32768) as Hw.
  { pose proof (sum_low_tail_bound (RDPPacket.data p)) as Hb. fold w in Hb.
    assert ((Z.of_nat (length (RDPPacket.data p)) + 1) / 2 <= 32768).
    { apply Z.div_le_upper_bound; unfold len, RDPPacket.data_length in Rlen; lia. }
    nia. }
  pose proof (Z.div_mod seq 65536 ltac:(lia)) as Hseq.
  pose proof (Z.mod_pos_bound seq 65536 ltac:(lia)) as Hseqm.
  pose proof (Z.div_mod ack 65536 ltac:(lia)) as Hack.
  pose proof (Z.mod_pos_bound ack 65536 ltac:(lia)) as Hackm.
  assert (0 <= seq / 65536 < 65536) as Hseqq
      by (split; [apply Z.div_pos | apply Z.div_lt_upper_bound]; lia).
  assert (0 <= ack / 65536 < 65536) as Hackq
      by (split; [apply Z.div_pos | apply Z.div_lt_upper_bound]; lia).
  pose proof (two_folds
    (0 + sp + dp + len + seq / 65536 + seq mod 65536 + ack / 65536 + ack mod 65536 + w)
    ltac:(lia)) as H2. cbv zeta in H2. rewrite H2.
  unfold low_tail_checksum. fold w. do 2 f_equal.
  rewrite <- (fold_carry_congr
    (0 + sp + dp + len + seq / 65536 + seq mod 65536 + ack / 65536 + ack mod 65536 + w)
    (seq / 65536 + ack / 65536)) by lia.
  f_equal. lia.
Qed.

Lemma compute_checksum_Some_iff (p : RDPPacket.t) :
  RDPPacket.compute_checksum p <> None <-> encodable p = true.
Proof.
  split.
  - intros Hc. apply encodable_true.
    unfold RDPPacket.compute_checksum in Hc. cbn [struct.pack] in Hc.
    destruct (struct.pack1 struct.H (RDPPacket.source_port p)) eqn:E1; [|congruence].
    destruct (struct.pack1 struct.H (RDPPacket.dest_port p)) eqn:E2; [|congruence].
    destruct (struct.pack1 struct.H (Some (RDPPacket.data_length p))) eqn:E3; [|congruence].
    destruct (struct.pack1 struct.I (Some (RDPPacket.seq_num p))) eqn:E4; [|congruence].
    destruct (struct.pack1 struct.I (Some (RDPPacket.ack_num p))) eqn:E5; [|congruence].
    apply pack1_Some in E1 as (sp & Hsp & R1 & _).
    apply pack1_Some in E2 as (dp & Hdp & R2 & _).
    apply pack1_Some in E3 as (? & [= <-] & R3 & _).
    apply pack1_Some in E4 as (? & [= <-] & R4 & _).
    apply pack1_Some in E5 as (? & [= <-] & R5 & _).
    exists sp, dp. cbn [struct.size] in *.
    change (256 ^ Z.of_nat 2) with 65536 in *.
    change (256 ^ Z.of_nat 4) with 4294967296 in *. tauto.
  - intros He. pose proof He as He'.
    apply encodable_true in He' as (sp & dp & Hsp & Hdp & _).
    rewrite (compute_checksum_encodable p sp dp Hsp Hdp He). discriminate.
Qed.

End Checksum.

(** ** The codec *)

Section Codec.

Lemma low_tail_checksum_range (sp dp len seq ack : Z) (payload : bytes) :
  0 <= sp -> 0 <= dp -> 0 <= len -> 0 <= seq -> 0 <= ack ->
  0 <= low_tail_checksum sp dp len seq ack payload < 65536.
Proof.
  intros. unfold low_tail_checksum.
  pose proof (sum_low_tail_bound payload) as [Hw _].
  pose proof (fold_carry_range
    (sp + dp + len + seq + ack + sum_list (be16_words_low_tail payload)) ltac:(lia)).
  rewrite complement16_small; lia.
Qed.

Lemma control_and_version_range (p : RDPPacket.t) :
  0 <= RDPPacket.control_and_version p < 65536.
Proof.
  unfold RDPPacket.control_and_version.
  destruct (RDPPacket.syn p), (RDPPacket.ack p), (RDPPacket.eack p),
    (RDPPacket.rst p), (RDPPacket.nul p); cbn; lia.
Qed.

(** The low byte of the control word is the header length, whatever the
    flags are. *)
Lemma control_and_version_low_byte (p : RDPPacket.t) :
  Z.land (RDPPacket.control_and_version p) 0xFF = 9.
Proof.
  unfold RDPPacket.control_and_version.
  destruct (RDPPacket.syn p), (RDPPacket.ack p), (RDPPacket.eack p),
    (RDPPacket.rst p), (RDPPacket.nul p); reflexivity.
Qed.

(** The bytes [encode] produces: a header of 22 bytes that unpacks to the
    fields, followed by the payload. *)
Lemma encode_encodable (p : RDPPacket.t) (sp dp : Z) :
  RDPPacket.source_port p = Some sp ->
  RDPPacket.dest_port p = Some dp ->
  encodable p = true ->
  exists header,
    RDPPacket.encode p = Some (header ++ RDPPacket.data p)
    /\ length header = 22%nat
    /\ struct.unpack RDPPacket.header_format header
       = Some [RDPPacket.control_and_version p; sp; dp; RDPPacket.data_length p;
               RDPPacket.seq_num p; RDPPacket.ack_num p;
               low_tail_checksum sp dp (RDPPacket.data_length p) (RDPPacket.seq_num p)
                 (RDPPacket.ack_num p) (RDPPacket.data p)].
Proof.
  intros Hsp Hdp He. unfold RDPPacket.encode.
  rewrite (compute_checksum_encodable p sp dp Hsp Hdp He), Hsp, Hdp.
  apply encodable_true in He as (sp' & dp' & Hsp' & Hdp' & Rsp & Rdp & Rseq & Rack & Rlen).
  rewrite Hsp in Hsp'. rewrite Hdp in Hdp'.
  injection Hsp' as <-. injection Hdp' as <-.
  set (ck := low_tail_checksum _ _ _ _ _ _).
  assert (0 <= ck < 65536) as Rck by (apply low_tail_checksum_range; lia).
  pose proof (control_and_version_range p) as Rcv.
  set (zs := [RDPPacket.control_and_version p; sp; dp; RDPPacket.data_length p;
              RDPPacket.seq_num p; RDPPacket.ack_num p; ck]).
  change [Some (RDPPacket.control_and_version p); Some sp; Some dp;
          Some (RDPPacket.data_length p); Some (RDPPacket.seq_num p);
          Some (RDPPacket.ack_num p); Some ck] with (map Some zs).
  destruct (struct.pack RDPPacket.header_format (map Some zs)) as [header|] eqn:E.
  - exists header. split; [reflexivity|]. split.
    + apply pack_length in E. exact E.
    + apply unpack_pack. exact E.
  - exfalso. revert E. subst zs. cbn [map RDPPacket.header_format struct.pack].
    rewrite !pack1_ok by (cbn [struct.size]; first
      [ change (256 ^ Z.of_nat 2) with 65536; assumption
      | change (256 ^ Z.of_nat 4) with 4294967296; lia ]).
    discriminate.
Qed.

Lemma encode_Some_iff (p : RDPPacket.t) :
  RDPPacket.encode p <> None <-> encodable p = true.
Proof.
  split.
  - intros He. apply compute_checksum_Some_iff.
    unfold RDPPacket.encode in He.
    destruct (RDPPacket.compute_checksum p); congruence.
  - intros He. pose proof He as He'.
    apply encodable_true in He' as (sp & dp & Hsp & Hdp & _).
    destruct (encode_encodable p sp dp Hsp Hdp He) as (h & -> & _). discriminate.
Qed.

Lemma encode_not_encodable (p : RDPPacket.t) :
  encodable p = false -> RDPPacket.encode p = None.
Proof.
  intros He. destruct (RDPPacket.encode p) eqn:E; [|reflexivity].
  assert (encodable p = true) by (apply encode_Some_iff; congruence). congruence.
Qed.

(** What decoding gives on an encoded packet: every field but the flags,
    which come out as SYN and RST set and the others clear. *)
Lemma decode_encode (p : RDPPacket.t) :
  encodable p = true ->
  exists packet_bytes,
    RDPPacket.encode p = Some packet_bytes
    /\ RDPPacket.decode packet_bytes
       = Some (RDPPacket.mk (RDPPacket.source_port p) (RDPPacket.dest_port p)
                 (RDPPacket.seq_num p) (RDPPacket.ack_num p) (RDPPacket.data p)
                 true false false true false).
Proof.
  intros He. pose proof He as He'.
  apply encodable_true in He' as (sp & dp & Hsp & Hdp & _).
  destruct (encode_encodable p sp dp Hsp Hdp He) as (header & Henc & Hlen & Hun).
  exists (header ++ RDPPacket.data p). split; [exact Henc|].
  unfold RDPPacket.decode.
  rewrite firstn_app, Hlen, Nat.sub_diag, firstn_O, app_nil_r.
  rewrite firstn_all2 by lia. rewrite Hun.
  rewrite skipn_app, Hlen, Nat.sub_diag, skipn_all2 by lia.
  cbn [app skipn]. rewrite control_and_version_low_byte, Hsp, Hdp. reflexivity.
Qed.

(** [decode] raises on fewer than 22 bytes and on nothing else. *)
Lemma decode_None_iff (packet_bytes : bytes) :
  RDPPacket.decode packet_bytes = None <-> (length packet_bytes < 22)%nat.
Proof.
  unfold RDPPacket.decode, struct.unpack.
  rewrite length_firstn.
  cbn [RDPPacket.header_format struct.calcsize struct.size Nat.add].
  destruct (Nat.eqb_spec (Nat.min 22 (length packet_bytes)) 22) as [E|E].
  - cbn [struct.unpack_fields]. split; [discriminate | lia].
  - split; [lia | reflexivity].
Qed.

Lemma even_length_words (x : bytes) :
  Nat.even (length x) = true -> be16_words_low_tail x = be16_words (pad_trailing x).
Proof.
  intros H. unfold pad_trailing. rewrite <- Nat.negb_even, H. cbn [negb].
  revert H.
  induction x as [| a | a b l IH] using list_pair_ind;
    cbn [length Nat.even be16_words_low_tail be16_words]; intros H.
  - reflexivity.
  - discriminate.
  - f_equal. auto.
Qed.

(** The four bytes of the checksum field have no part in what [decode]
    returns. *)
Lemma decode_ignores_checksum (header checksum checksum' payload : bytes) :
  length header = 18%nat -> length checksum = 4%nat -> length checksum' = 4%nat ->
  RDPPacket.decode (header ++ checksum ++ payload)
  = RDPPacket.decode (header ++ checksum' ++ payload).
Proof.
  intros Hh Hc Hc'.
  do 19 (destruct header as [|? header]; try discriminate).
  do 5 (destruct checksum as [|? checksum]; try discriminate).
  do 5 (destruct checksum' as [|? checksum']; try discriminate).
  reflexivity.
Qed.

End Codec.

(** ** The connection *)

Section Connection.

Import RDPConnection.

Lemma State_eqb_eq (a b : State) : State_eqb a b = true <-> a = b.
Proof. destruct a, b; simpl; split; (reflexivity || discriminate). Qed.

Lemma send_packet_ok (p : RDPPacket.t) (wire : bytes) (m : machine) :
  RDPPacket.encode p = Some wire ->
  send_packet p m
  = (Return VNone, mkM (self m) (sent m ++ [(wire, remote_address (self m))])).
Proof.
  intros He. unfold send_packet, bind, lift_struct, sendto, ret.
  rewrite He. reflexivity.
Qed.

Lemma send_packet_fail (p : RDPPacket.t) (m : machine) :
  RDPPacket.encode p = None -> send_packet p m = (Raise struct_error, m).
Proof.
  intros He. unfold send_packet, bind, lift_struct. rewrite He. reflexivity.
Qed.

(** [send_packet] never touches the attributes of the connection. *)
Lemma send_packet_self (p : RDPPacket.t) (m : machine) :
  self (snd (send_packet p m)) = self m.
Proof.
  destruct (RDPPacket.encode p) as [wire|] eqn:He.
  - rewrite (send_packet_ok p wire m He). reflexivity.
  - rewrite (send_packet_fail p m He). reflexivity.
Qed.

(** [send] on an OPEN connection that has its [SND_MAX]. *)
Lemma send_in_open (c : t) (out : list (bytes * option address)) (data : bytes)
    (snd_max : Z) :
  state c = OPEN -> SND_MAX c = Some snd_max ->
  send data (mkM c out)
  = if Z.of_nat (length data) >? snd_max then
      (Return (VStr SegmentTooLarge), mkM c out)
    else if SND_NXT c >=? SND_UNA c + snd_max then
      (Return (VStr WindowFull), mkM c out)
    else
      match RDPPacket.encode (data_packet c data) with
      | Some wire =>
          (Return VNone,
           mkM (set_SND_NXT (SND_NXT c + Z.of_nat (length data)) c)
               (out ++ [(wire, remote_address c)]))
      | None => (Raise struct_error, mkM c out)
      end.
Proof.
  intros Hst Hmax.
  unfold send, prepare_data_packet, send_packet, bind, get, getattr, ret, modify,
    lift_struct, sendto.
  cbn [self sent]. rewrite Hst. cbn [State_eqb negb self sent]. rewrite Hmax.
  destruct (Z.of_nat (length data) >? snd_max); [reflexivity|].
  destruct (SND_NXT c >=? SND_UNA c + snd_max); [reflexivity|].
  cbn [self sent]. fold (data_packet c data).
  destruct (RDPPacket.encode (data_packet c data)); reflexivity.
Qed.

(** [close] on any connection. *)
Lemma close_run (c : t) (out : list (bytes * option address)) :
  close (mkM c out)
  = if existsb (State_eqb (state c)) [LISTEN; SYN_RCVD; SYN_SENT] then
      match RDPPacket.encode (rst_packet c) with
      | Some wire =>
          (Return (VStr "Connection closed from state: LISTEN/SYN-RCVD/SYN-SENT"),
           mkM (set_state CLOSED c) (out ++ [(wire, remote_address c)]))
      | None => (Raise struct_error, mkM c out)
      end
    else if State_eqb (state c) OPEN then
      match RDPPacket.encode (rst_packet c) with
      | Some wire =>
          (Return (VStr "Connection set to CLOSE-WAIT from state: OPEN"),
           mkM (set_state CLOSE_WAIT c) (out ++ [(wire, remote_address c)]))
      | None => (Raise struct_error, mkM c out)
      end
    else (Return (VStr NotOpenOrClosing), mkM c out).
Proof.
  unfold close, send_rst, send_packet, bind, get, ret, modify, lift_struct, sendto.
  cbn [self sent].
  destruct (existsb (State_eqb (state c)) [LISTEN; SYN_RCVD; SYN_SENT]).
  - cbn [self sent]. fold (rst_packet c).
    destruct (RDPPacket.encode (rst_packet c)); reflexivity.
  - destruct (State_eqb (state c) OPEN); [|reflexivity].
    cbn [self sent]. fold (rst_packet c).
    destruct (RDPPacket.encode (rst_packet c)); reflexivity.
Qed.

(** A valid packet without payload can be encoded. *)
Lemma valid_empty_encodable (p : RDPPacket.t) :
  valid p = true -> RDPPacket.data p = [] -> encodable p = true.
Proof.
  intros Hv Hd. unfold encodable, RDPPacket.data_length. now rewrite Hv, Hd.
Qed.

(** What the handler of an inbound RST does when it is reached: the
    connection is CLOSED, its counters are zero and its buffer is empty. *)
Lemma handle_rst_packet_resets (m : machine) (p : RDPPacket.t) :
  state (self m) = OPEN -> RDPPacket.rst p = true ->
  handle_rst_packet p m
  = (Return VNone,
     mkM (mk (remote_address (self m)) CLOSED 0 0 0 0 0 []
             (source_port (self m)) (dest_port (self m))
             (SND_MAX (self m)) (RMAX_BUF (self m)) (local_port (self m)))
         (sent m)).
Proof.
  intros Hst Hrst. destruct m as [c out]. cbn [self sent] in *.
  unfold handle_rst_packet, reset_connection, bind, get, ret, modify.
  cbn [self sent]. rewrite Hst, Hrst. reflexivity.
Qed.

(** The dispatch leaves the machine alone on a packet that fails the test
    of the state. *)
Lemma dispatch_unhandled (m : machine) (p : RDPPacket.t) :
  handled (state (self m)) p = false ->
  dispatch p m
  = (Return (VPacket (RDPPacket.mk (source_port (self m)) (dest_port (self m))
                        (SND_NXT (self m)) (RCV_CUR (self m))
                        (list_byte_of_string "Test response")
                        false false false false false)), m).
Proof.
  destruct m as [c out]. cbn [self sent]. intros Hl.
  unfold dispatch, bind, get, ret. cbn [self sent].
  destruct (state c); cbn [handled] in Hl.
  - reflexivity.
  - rewrite Hl. reflexivity.
  - rewrite Hl. reflexivity.
  - rewrite Hl. reflexivity.
  - apply orb_false_elim in Hl as [-> ->]. reflexivity.
  - reflexivity.
Qed.




(** For the RST packet of a connection, which has no payload, the packets
    that [encode] accepts are the valid ones. *)
Lemma rst_packet_encodable (c : t) : encodable (rst_packet c) = valid (rst_packet c).
Proof.
  unfold encodable, RDPPacket.data_length, rst_packet. cbn [RDPPacket.data length].
  apply andb_true_r.
Qed.

(** [receive_packet] on the datagram that [recvfrom] returned. *)
Lemma receive_packet_run (c : t) (out : list (bytes * option address))
    (payload : bytes) (addr : address) :
  receive_packet (payload, addr) (mkM c out)
  = if address_ne addr (remote_address c) then (Return VNone, mkM c out)
    else match RDPPacket.decode (firstn 1024 payload) with
         | Some p => (Return (VPacket p), mkM c out)
         | None => (Raise struct_error, mkM c out)
         end.
Proof.
  unfold receive_packet, bind, get, ret, lift, RDPPacket.call_decode.
  cbn [self sent fst snd].
  destruct (address_ne addr (remote_address c)); [reflexivity|].
  destruct (RDPPacket.decode (firstn 1024 payload)); reflexivity.
Qed.

(** [open] on a CLOSED connection sets the send counters before anything
    else, whatever it returns or raises afterwards. *)
Lemma open_counters (m : machine) (iss : Z) (passive : bool)
    (lp rp smax rbuf : option Z) :
  state (self m) = CLOSED ->
  let c' := self (snd (open iss passive lp rp smax rbuf m)) in
  SND_ISS c' = iss /\ SND_NXT c' = iss + 1 /\ SND_UNA c' = iss
  /\ SND_MAX c' = Some (or_default smax 10)
  /\ RMAX_BUF c' = Some (or_default rbuf 1024).
Proof.
  destruct m as [c out]. cbn [self sent]. intros Hst.
  unfold open, opened, allocate_local_port, bind, get, ret, modify.
  cbn [self sent]. rewrite Hst. cbn [State_eqb negb self sent].
  destruct passive.
  - destruct lp; cbn; auto.
  - destruct rp; [|cbn; auto].
    destruct lp; cbn [self sent];
      match goal with
      | |- context [send_packet ?p ?m] =>
          pose proof (send_packet_self p m) as Hs;
          destruct (send_packet p m) as [[v|e] m']; cbn [snd] in Hs; cbn;
          rewrite Hs; cbn; auto
      end.
Qed.

(** The send counters after [send_packet] and after the senders built on
    it. *)
Lemma send_packet_inv (P : t -> Prop) (p : RDPPacket.t) (m : machine) :
  P (self m) -> P (self (snd (send_packet p m))).
Proof. now rewrite send_packet_self. Qed.

Ltac unfold_monad :=
  unfold bind, ret, raise, get, modify, lift, lift_struct, getattr, sendto in *.

Ltac split_send_packet :=
  match goal with
  | |- context [send_packet ?p ?m] =>
      let Hs := fresh "Hs" in
      let v := fresh "v" in
      let e := fresh "e" in
      let m' := fresh "m'" in
      pose proof (send_packet_self p m) as Hs;
      destruct (send_packet p m) as [[v|e] m'];
      cbn [snd self sent] in Hs; cbn [snd fst self sent]
  end.

Ltac counters :=
  repeat match goal with
         | H : self ?m = _ |- _ => rewrite H in *; clear H
         end;
  unfold window_inv in *;
  cbn [self sent snd fst SND_UNA SND_NXT set_state set_SND_ISS set_SND_NXT set_SND_UNA
       set_RCV_CUR set_RCV_MAX set_data_buffer set_source_port set_SND_MAX
       set_RMAX_BUF set_local_port] in *;
  try lia.

(** Every method keeps [SND_UNA <= SND_NXT]. *)
Lemma run_preserves_window (k : call) (m : machine) :
  window_inv (self m) -> window_inv (self (snd (run k m))).
Proof.
  destruct m as [c out]. cbn [self]. intros Hinv.
  destruct k; cbn [run].
  - (* open *)
    destruct (State_eqb (state c) CLOSED) eqn:Hst.
    + apply State_eqb_eq in Hst.
      destruct (open_counters (mkM c out) iss passive local_port0 remote_port
                  snd_max rmax_buf Hst) as (_ & Hn & Hu & _).
      unfold window_inv. rewrite Hn, Hu. lia.
    + unfold open. unfold_monad. cbn [self]. rewrite Hst. exact Hinv.
  - (* close *)
    rewrite close_run.
    destruct (existsb _ _); [|destruct (State_eqb _ _)];
      try destruct (RDPPacket.encode _); counters.
  - (* send *)
    destruct (State_eqb (state c) OPEN) eqn:Hst.
    + apply State_eqb_eq in Hst. destruct (SND_MAX c) as [snd_max|] eqn:Hmax.
      * rewrite (send_in_open c out data snd_max Hst Hmax).
        destruct (_ >? _); [exact Hinv|]. destruct (_ >=? _); [exact Hinv|].
        destruct (RDPPacket.encode _); counters.
      * unfold send. unfold_monad. cbn [self sent]. rewrite Hst.
        cbn [State_eqb negb self sent]. rewrite Hmax. exact Hinv.
    + unfold send. unfold_monad. cbn [self sent]. rewrite Hst. exact Hinv.
  - (* send_packet *)
    now apply send_packet_inv.
  - (* receive_packet *)
    destruct dgram as [payload addr]. rewrite receive_packet_run.
    destruct (address_ne _ _); [exact Hinv|].
    destruct (RDPPacket.decode _); exact Hinv.
  - (* send_ack *)
    unfold send_ack. unfold_monad. cbn [self sent]. now apply send_packet_inv.
  - (* send_syn_ack *)
    unfold send_syn_ack. unfold_monad. cbn [self sent]. now apply send_packet_inv.
  - (* receive *)
    destruct dgram as [payload addr].
    unfold receive. unfold bind at 1, get. cbn [self sent].
    destruct (negb _); [exact Hinv|].
    unfold bind at 1. rewrite receive_packet_run.
    destruct (address_ne _ _); [exact Hinv|].
    destruct (RDPPacket.decode _); exact Hinv.
  - (* process_packet *)
    exact Hinv.
  - (* handle_syn_packet *)
    unfold handle_syn_packet, send_syn_ack. unfold_monad. cbn [self sent].
    destruct (_ && _); [|exact Hinv]. cbn [self sent].
    split_send_packet; counters.
  - (* handle_syn_ack_packet *)
    unfold handle_syn_ack_packet, send_ack. unfold_monad. cbn [self sent].
    destruct (_ && _); [|exact Hinv]. cbn [self sent].
    split_send_packet; counters.
  - (* handle_ack_packet *)
    unfold handle_ack_packet. unfold_monad. cbn [self sent].
    destruct (_ && _); [|exact Hinv]. counters.
  - (* handle_data_packet *)
    unfold handle_data_packet, send_ack. unfold_monad. cbn [self sent].
    destruct (_ && _); [|exact Hinv]. cbn [self sent].
    split_send_packet; counters.
  - (* handle_rst_packet *)
    unfold handle_rst_packet, reset_connection. unfold_monad. cbn [self sent].
    destruct (_ && _); [|exact Hinv]. counters.
  - (* send_rst *)
    unfold send_rst. unfold_monad. cbn [self sent]. now apply send_packet_inv.
  - (* listen *)
    unfold listen. unfold_monad. destruct bind_error; counters.
  - (* handle_state_transition *)
    unfold handle_state_transition. unfold_monad.
    repeat match goal with
           | |- context [String.eqb ?a ?b] => destruct (String.eqb a b)
           end; counters.
  - (* reset_connection *)
    unfold reset_connection. unfold_monad. counters.
  - (* allocate_local_port *)
    unfold allocate_local_port. unfold_monad. counters.
Qed.

Lemma run_all_preserves_window (ks : list call) : forall m,
  window_inv (self m) -> window_inv (self (run_all ks m)).
Proof.
  induction ks as [|k ks IH]; intros m Hinv; cbn [run_all].
  - exact Hinv.
  - apply IH. now apply run_preserves_window.
Qed.

(** Line 222 of [process_packet] raises before the dispatch is reached. *)
Lemma process_packet_raises (p : RDPPacket.t) (m : machine) :
  process_packet p m = (Raise TypeError, m).
Proof. reflexivity. Qed.

End Connection.

(** * The claims about the codec *)

Section CodecClaims.

(** C1 (round trip), evaluated on a data packet without flags: every
    field is recovered except the five control flags; [decode] reads them
    from the low byte of the control word, which holds the header length 9,
    so the decoded packet has SYN and RST set and the round trip does not
    give the packet back. *)
Theorem decode_encode_sample_data_packet :
  exists packet_bytes,
    RDPPacket.encode sample_data_packet = Some packet_bytes
    /\ RDPPacket.decode packet_bytes
       = Some (RDPPacket.mk (Some 10000) (Some 9000) 7 3 [x68; x69; x21]
                 true false false true false)
    /\ RDPPacket.decode packet_bytes <> Some sample_data_packet.
Proof.
  destruct (decode_encode sample_data_packet eq_refl) as (wire & He & Hd).
  exists wire. split; [exact He|]. split; [exact Hd|].
  rewrite Hd. discriminate.
Qed.

(** C2, the claim as stated fails on a payload of odd length: the last
    byte [0x21] of ["hi!"] is added as [0x0021] by [compute_checksum], while
    the padding with a trailing zero byte makes it [0x2100]. *)
Lemma compute_checksum_odd_payload :
  RDPPacket.compute_checksum sample_data_packet = Some 19760
  /\ spec_checksum 10000 9000 3 7 3 [x68; x69; x21] = 11345
  /\ RDPPacket.compute_checksum sample_data_packet
     <> Some (spec_checksum 10000 9000 (RDPPacket.data_length sample_data_packet) 7 3
                (RDPPacket.data sample_data_packet)).
Proof.
  split; [vm_compute; reflexivity|].
  split; [vm_compute; reflexivity|].
  vm_compute. discriminate.
Qed.

(** C2 as amended: on every packet with 16-bit ports, 32-bit sequence and
    acknowledgement numbers and a payload of at most 65535 bytes,
    [compute_checksum] returns the one's-complement 16-bit checksum of the
    sum of the five header fields and of the payload read as big-endian
    16-bit words, the last byte of an odd payload counting as its own value,
    with every carry folded back until none remains; on a payload of even
    length that is the checksum of the specification. *)
Theorem compute_checksum_spec (p : RDPPacket.t) (sp dp : Z) :
  RDPPacket.source_port p = Some sp ->
  RDPPacket.dest_port p = Some dp ->
  encodable p = true ->
  RDPPacket.compute_checksum p
  = Some (low_tail_checksum sp dp (RDPPacket.data_length p) (RDPPacket.seq_num p)
            (RDPPacket.ack_num p) (RDPPacket.data p))
  /\ (Nat.even (length (RDPPacket.data p)) = true ->
      RDPPacket.compute_checksum p
      = Some (spec_checksum sp dp (RDPPacket.data_length p) (RDPPacket.seq_num p)
                (RDPPacket.ack_num p) (RDPPacket.data p))).
Proof.
  intros Hsp Hdp He.
  pose proof (compute_checksum_encodable p sp dp Hsp Hdp He) as Hc.
  split; [exact Hc|].
  intros Heven. rewrite Hc. unfold low_tail_checksum, spec_checksum.
  now rewrite (even_length_words _ Heven).
Qed.

Lemma compute_checksum_spec_witness :
  RDPPacket.compute_checksum sample_data_packet
  = Some (low_tail_checksum 10000 9000 3 7 3 [x68; x69; x21])
  /\ (Nat.even 3 = true ->
      RDPPacket.compute_checksum sample_data_packet
      = Some (spec_checksum 10000 9000 3 7 3 [x68; x69; x21])).
Proof.
  exact (compute_checksum_spec sample_data_packet 10000 9000 eq_refl eq_refl eq_refl).
Defined.

(** C3, the claim as stated fails on a datagram whose header declares
    five bytes of payload and that carries none: [decode] returns a packet,
    with an empty payload. *)
Lemma decode_accepts_length_mismatch :
  from_bytes_big (firstn 4 (skipn 6 sample_short_datagram)) = 5
  /\ length (skipn 22 sample_short_datagram) = 0%nat
  /\ RDPPacket.decode sample_short_datagram
     = Some (RDPPacket.mk (Some 10000) (Some 9000) 7 3 []
               true false false true false).
Proof. repeat split. Qed.

(** C3 as amended: [decode] fails exactly when fewer than 22 bytes are
    present; on every other input it returns a packet whose payload is
    what follows the first 22 bytes, whatever the length field and the
    checksum field hold. *)
Theorem decode_fails_exactly_when_short (packet_bytes : bytes) :
  (RDPPacket.decode packet_bytes = None <-> (length packet_bytes < 22)%nat)
  /\ ((22 <= length packet_bytes)%nat ->
      exists p, RDPPacket.decode packet_bytes = Some p
                /\ RDPPacket.data p = skipn 22 packet_bytes).
Proof.
  split; [apply decode_None_iff|].
  intros Hlen. destruct (RDPPacket.decode packet_bytes) as [p|] eqn:Hd.
  - exists p. split; [reflexivity|].
    revert Hd. unfold RDPPacket.decode.
    destruct (struct.unpack _ _) as [[|? [|? [|? [|? [|? [|? [|? [|? ?]]]]]]]]|];
      try discriminate.
    now intros [= <-].
  - apply decode_None_iff in Hd. lia.
Qed.

End CodecClaims.

(** * The claims about the connection *)

Section ConnectionClaims.

Import RDPConnection.

(** C4, the claim as stated fails on a payload of 65536 bytes sent on an
    OPEN connection whose maximum segment size is 70000: no check of [send]
    refuses it, and the call ends in the [struct.error] of the codec, with
    nothing transmitted and [SND_NXT] where it was. *)
Lemma send_oversize_payload :
  let data := repeat x00 (Z.to_nat 65536) in
  let m := mkM sample_wide_connection [] in
  state (self m) = OPEN
  /\ SND_MAX (self m) = Some 70000
  /\ Z.of_nat (length data) <= 70000
  /\ SND_NXT (self m) < SND_UNA (self m) + 70000
  /\ send data m = (Raise struct_error, m).
Proof. vm_compute. repeat split; congruence. Qed.

(** C4 as amended: [send] returns NotOpen when the state is not OPEN;
    else, with the maximum segment size [SND_MAX] that [open] recorded, it
    returns SegmentTooLarge when the payload is longer than [SND_MAX], else
    WindowFull when [SND_NXT >= SND_UNA + SND_MAX]; otherwise, when the
    payload has at most 65535 bytes (and the ports are 16-bit, the counters
    32-bit), it transmits exactly one packet with [seq_num = SND_NXT],
    [ack_num = RCV_CUR], no flag and the payload, and advances [SND_NXT] by
    the length of the payload; a data packet that cannot be encoded makes
    the call raise, with nothing transmitted and [SND_NXT] unchanged. *)
Theorem send_spec (m : machine) (data : bytes) :
  let c := self m in
  let len := Z.of_nat (length data) in
  (state c <> OPEN -> send data m = (Return (VStr NotOpen), m))
  /\ (state c = OPEN -> forall snd_max, SND_MAX c = Some snd_max ->
      (len > snd_max -> send data m = (Return (VStr SegmentTooLarge), m))
      /\ (len <= snd_max -> SND_NXT c >= SND_UNA c + snd_max ->
          send data m = (Return (VStr WindowFull), m))
      /\ (len <= snd_max -> SND_NXT c < SND_UNA c + snd_max ->
          (valid (data_packet c data) = true -> len < 65536 ->
           exists wire,
             RDPPacket.encode (data_packet c data) = Some wire
             /\ send data m
                = (Return VNone,
                   mkM (set_SND_NXT (SND_NXT c + len) c)
                       (sent m ++ [(wire, remote_address c)])))
          /\ (encodable (data_packet c data) = false ->
              send data m = (Raise struct_error, m)))).
Proof.
  cbv zeta. destruct m as [c out]. cbn [self sent].
  set (len := Z.of_nat (length data)).
  split.
  - intros Hst. unfold send, bind, get, ret. cbn [self].
    destruct (State_eqb (state c) OPEN) eqn:E; [|reflexivity].
    apply State_eqb_eq in E. contradiction.
  - intros Hst snd_max Hmax.
    pose proof (send_in_open c out data snd_max Hst Hmax) as Hsend.
    fold len in Hsend.
    destruct (Z.gtb_spec len snd_max) as [Hgt|Hle].
    { repeat split; intros; (exact Hsend || lia). }
    destruct (Z.geb_spec (SND_NXT c) (SND_UNA c + snd_max)) as [Hfull|Hfree].
    { repeat split; intros; (exact Hsend || lia). }
    split; [intros; lia|]. split; [intros; lia|]. intros _ _. split.
    + intros Hvalid Hshort.
      assert (encodable (data_packet c data) = true) as He.
      { unfold encodable. rewrite Hvalid. cbn [andb].
        apply Z.ltb_lt. exact Hshort. }
      destruct (RDPPacket.encode (data_packet c data)) as [wire|] eqn:Henc.
      * exists wire. split; [reflexivity | exact Hsend].
      * apply encode_Some_iff in He. contradiction.
    + intros He. rewrite (encode_not_encodable _ He) in Hsend. exact Hsend.
Qed.

(** C5, evaluated: on a connection in state OPEN, [process_packet] of a
    packet with the RST flag raises [TypeError] at its first statement,
    [packet.decode()]; the handler of the RST is not reached, and the
    connection stays OPEN with its counters and its buffer as they were. *)
Theorem process_packet_rst_in_open (m : machine) (p : RDPPacket.t) :
  state (self m) = OPEN -> RDPPacket.rst p = true ->
  process_packet p m = (Raise TypeError, m)
  /\ state (self (snd (process_packet p m))) = OPEN.
Proof.
  intros Hst _. rewrite process_packet_raises. split; [reflexivity | exact Hst].
Qed.

Lemma process_packet_rst_in_open_witness :
  process_packet sample_rst_packet sample_open_machine
  = (Raise TypeError, sample_open_machine)
  /\ state (self (snd (process_packet sample_rst_packet sample_open_machine))) = OPEN.
Proof.
  exact (process_packet_rst_in_open sample_open_machine sample_rst_packet
           eq_refl eq_refl).
Defined.

(** C6, the claim as stated fails: the connection that the server builds
    has no destination port; once it listens, after [listen] or after a
    passive [open], [close] raises the [struct.error] of the codec on the
    RST packet it builds, sends nothing and leaves the state LISTEN. *)
Lemma close_raises_in_listen :
  let m := snd (listen None 12345 (mkM sample_server_connection [])) in
  let m' := snd (open 41 true (Some 12345) None None None
                   (mkM sample_server_connection [])) in
  (state (self m) = LISTEN /\ sent m = [] /\ close m = (Raise struct_error, m))
  /\ (state (self m') = LISTEN /\ sent m' = []
      /\ close m' = (Raise struct_error, m')).
Proof. vm_compute. repeat split; reflexivity. Qed.

(** C6 as amended: [close] in CLOSED or CLOSE-WAIT returns NotOpenOrClosing
    and leaves the connection as it was.  In the four other states it builds
    an RST packet from the ports of the connection, [SND_NXT] and [RCV_CUR].
    When that packet is valid (16-bit ports, 32-bit [SND_NXT] and
    [RCV_CUR]), [close] in OPEN sends exactly one RST packet and moves the
    state to CLOSE-WAIT, and in LISTEN, SYN-RCVD or SYN-SENT it sends one
    RST packet and moves the state to CLOSED.  When it is not (a port that
    is [None], a counter out of range), [close] raises [struct.error], sends
    nothing and leaves the state as it was. *)
Theorem close_spec (m : machine) :
  let c := self m in
  (state c = CLOSED \/ state c = CLOSE_WAIT ->
   close m = (Return (VStr NotOpenOrClosing), m))
  /\ (valid (rst_packet c) = true ->
      exists wire,
        RDPPacket.encode (rst_packet c) = Some wire
        /\ RDPPacket.rst (rst_packet c) = true
        /\ (state c = OPEN ->
            close m
            = (Return (VStr "Connection set to CLOSE-WAIT from state: OPEN"),
               mkM (set_state CLOSE_WAIT c) (sent m ++ [(wire, remote_address c)])))
        /\ (state c = LISTEN \/ state c = SYN_RCVD \/ state c = SYN_SENT ->
            close m
            = (Return (VStr "Connection closed from state: LISTEN/SYN-RCVD/SYN-SENT"),
               mkM (set_state CLOSED c) (sent m ++ [(wire, remote_address c)]))))
  /\ (valid (rst_packet c) = false ->
      state c = OPEN \/ state c = LISTEN \/ state c = SYN_RCVD \/ state c = SYN_SENT ->
      close m = (Raise struct_error, m)).
Proof.
  cbv zeta. destruct m as [c out]. cbn [self sent].
  rewrite close_run. split; [|split].
  - intros [-> | ->]; reflexivity.
  - intros Hv.
    pose proof (valid_empty_encodable _ Hv eq_refl) as He.
    destruct (RDPPacket.encode (rst_packet c)) as [wire|] eqn:Henc.
    + exists wire. split; [reflexivity|]. split; [reflexivity|]. split.
      * intros ->. reflexivity.
      * intros [-> | [-> | ->]]; reflexivity.
    + apply encode_Some_iff in He. contradiction.
  - intros Hv Hst. rewrite <- rst_packet_encodable in Hv.
    rewrite (encode_not_encodable _ Hv).
    destruct Hst as [-> | [-> | [-> | ->]]]; reflexivity.
Qed.

Lemma close_spec_witness :
  close sample_open_machine
  = (Return (VStr "Connection set to CLOSE-WAIT from state: OPEN"),
     mkM (set_state CLOSE_WAIT sample_open_connection)
       [([x11; x09; x27; x10; x23; x28; x00; x00; x00; x00; x00; x00; x00; x2a;
          x00; x00; x00; x11; x00; x00; xb5; x8c], Some sample_peer)]).
Proof.
  destruct (close_spec sample_open_machine) as (_ & Hvalid & _).
  destruct (Hvalid eq_refl) as (wire & He & _ & Hopen & _).
  vm_compute in He. injection He as <-. exact (Hopen eq_refl).
Defined.




(** C8, the claim as stated fails: an empty datagram from the peer makes
    [receive] on an OPEN connection raise the [struct.error] of [decode],
    where a tick without a packet of the peer returns the "no data" string;
    and a datagram whose checksum field (0) is not the checksum of its
    content (46525) is not dropped: [receive_packet] returns its packet. *)
Lemma receive_surfaces_framing_error :
  receive ([], sample_peer) sample_open_machine
  = (Raise struct_error, sample_open_machine)
  /\ receive ([], sample_stranger) sample_open_machine
     = (Return (VStr NoPacket), sample_open_machine)
  /\ from_bytes_big (firstn 4 (skipn 18 sample_short_datagram)) = 0
  /\ exists p,
       receive_packet (sample_short_datagram, sample_peer) sample_open_machine
       = (Return (VPacket p), sample_open_machine)
       /\ RDPPacket.compute_checksum p = Some 46525.
Proof.
  split; [reflexivity|]. split; [reflexivity|]. split; [reflexivity|].
  eexists. split; [reflexivity|]. vm_compute. reflexivity.
Qed.

(** C8 as amended: a datagram from another address than the recorded
    peer is treated as no packet; a datagram of the peer with fewer than 22
    bytes makes [receive_packet], and [receive] on an OPEN connection, raise
    the error of [decode] to the caller, the connection unchanged; a
    datagram of the peer with 22 bytes or more is decoded and returned by
    [receive_packet] without any verification of its checksum. *)
Theorem receive_packet_spec (m : machine) (payload : bytes) (addr : address) :
  (address_ne addr (remote_address (self m)) = true ->
   receive_packet (payload, addr) m = (Return VNone, m)
   /\ (state (self m) = OPEN ->
       receive (payload, addr) m = (Return (VStr NoPacket), m)))
  /\ (address_ne addr (remote_address (self m)) = false ->
      ((length payload < 22)%nat ->
       receive_packet (payload, addr) m = (Raise struct_error, m)
       /\ (state (self m) = OPEN ->
           receive (payload, addr) m = (Raise struct_error, m)))
      /\ ((22 <= length payload)%nat ->
          exists p,
            RDPPacket.decode (firstn 1024 payload) = Some p
            /\ receive_packet (payload, addr) m = (Return (VPacket p), m))).
Proof.
  destruct m as [c out]. cbn [self sent].
  assert (forall r, state c = OPEN ->
            receive_packet (payload, addr) (mkM c out) = (r, mkM c out) ->
            receive (payload, addr) (mkM c out)
            = match r with
              | Return (VPacket p) => (Raise TypeError, mkM c out)
              | Return _ => (Return (VStr NoPacket), mkM c out)
              | Raise e => (Raise e, mkM c out)
              end) as Hreceive.
  { intros r Hst Hr. unfold receive. unfold bind at 1, get. cbn [self sent].
    rewrite Hst. cbn [State_eqb negb]. unfold bind at 1. rewrite Hr.
    destruct r as [[| | |p|]|e]; reflexivity. }
  rewrite receive_packet_run. split.
  - intros Ha. split; [now rewrite Ha|].
    intros Hst. apply (Hreceive (Return VNone) Hst).
    rewrite receive_packet_run, Ha. reflexivity.
  - intros Ha. rewrite Ha. split.
    + intros Hshort.
      assert (RDPPacket.decode (firstn 1024 payload) = None) as Hd.
      { apply decode_None_iff. rewrite length_firstn. lia. }
      rewrite Hd. split; [reflexivity|].
      intros Hst. apply (Hreceive (Raise struct_error) Hst).
      rewrite receive_packet_run, Ha, Hd. reflexivity.
    + intros Hlong.
      destruct (RDPPacket.decode (firstn 1024 payload)) as [p|] eqn:Hd.
      * exists p. split; reflexivity.
      * apply decode_None_iff in Hd. rewrite length_firstn in Hd. lia.
Qed.

(** C9: a successful [open] of a CLOSED connection sets
    [SND_NXT = SND_ISS + 1] and [SND_UNA = SND_ISS], and after it
    [SND_UNA <= SND_NXT] holds whatever methods are called, in whatever
    order and with whatever outcome. *)
Theorem window_invariant_after_open (m : machine) (iss : Z) (passive : bool)
    (local_port remote_port snd_max rmax_buf : option Z) (st : State) :
  state (self m) = CLOSED ->
  fst (open iss passive local_port remote_port snd_max rmax_buf m)
  = Return (VStr ("Connection opened in state " ++ State_str st)) ->
  let m1 := snd (open iss passive local_port remote_port snd_max rmax_buf m) in
  SND_NXT (self m1) = SND_ISS (self m1) + 1
  /\ SND_UNA (self m1) = SND_ISS (self m1)
  /\ forall ks : list call, window_inv (self (run_all ks m1)).
Proof.
  intros Hst _ m1.
  destruct (open_counters m iss passive local_port remote_port snd_max rmax_buf Hst)
    as (Hi & Hn & Hu & _).
  fold m1 in Hi, Hn, Hu.
  split; [congruence|]. split; [congruence|].
  intros ks. apply run_all_preserves_window.
  unfold window_inv. rewrite Hn, Hu. lia.
Qed.

Lemma window_invariant_after_open_witness :
  let m1 := snd (open 41 false None (Some 9000) None None
                   (mkM sample_closed_connection [])) in
  SND_NXT (self m1) = SND_ISS (self m1) + 1
  /\ SND_UNA (self m1) = SND_ISS (self m1)
  /\ forall ks : list call, window_inv (self (run_all ks m1)).
Proof.
  exact (window_invariant_after_open (mkM sample_closed_connection []) 41 false
           None (Some 9000) None None SYN_SENT eq_refl eq_refl).
Defined.

(** C10: an [open] of a CLOSED connection that fails for a missing port
    (passive without local port, active without remote port) returns its
    error after it has stored the fresh [SND_ISS], [SND_NXT = SND_ISS + 1],
    [SND_UNA = SND_ISS], [SND_MAX] and [RMAX_BUF]; the state stays CLOSED and
    nothing is sent. *)
Theorem open_missing_port (m : machine) (iss : Z) (passive : bool)
    (local_port remote_port snd_max rmax_buf : option Z) :
  state (self m) = CLOSED ->
  (passive = true /\ local_port = None) \/ (passive = false /\ remote_port = None) ->
  let c' :=
    set_RMAX_BUF (Some (or_default rmax_buf 1024))
      (set_SND_MAX (Some (or_default snd_max 10))
         (set_SND_UNA iss (set_SND_NXT (iss + 1) (set_SND_ISS iss (self m))))) in
  open iss passive local_port remote_port snd_max rmax_buf m
  = (Return (VStr (if passive then MissingLocalPort else MissingRemotePort)),
     mkM c' (sent m))
  /\ state c' = CLOSED
  /\ SND_ISS c' = iss /\ SND_NXT c' = iss + 1 /\ SND_UNA c' = iss
  /\ SND_MAX c' = Some (or_default snd_max 10)
  /\ RMAX_BUF c' = Some (or_default rmax_buf 1024).
Proof.
  destruct m as [c out]. cbn [self sent]. intros Hst Hport. cbv zeta.
  split; [|cbn [set_RMAX_BUF set_SND_MAX set_SND_UNA set_SND_NXT set_SND_ISS state
                SND_ISS SND_NXT SND_UNA SND_MAX RMAX_BUF]; auto 10].
  unfold open. unfold bind, get, ret, modify. cbn [self sent].
  rewrite Hst. cbn [State_eqb negb self sent].
  destruct Hport as [[-> ->] | [-> ->]]; reflexivity.
Qed.

Lemma open_missing_port_witness :
  let c' :=
    set_RMAX_BUF (Some 1024)
      (set_SND_MAX (Some 10)
         (set_SND_UNA 41 (set_SND_NXT (41 + 1)
            (set_SND_ISS 41 sample_closed_connection)))) in
  open 41 true None None None None (mkM sample_closed_connection [])
  = (Return (VStr MissingLocalPort), mkM c' [])
  /\ state c' = CLOSED
  /\ SND_ISS c' = 41 /\ SND_NXT c' = 41 + 1 /\ SND_UNA c' = 41
  /\ SND_MAX c' = Some 10
  /\ RMAX_BUF c' = Some 1024.
Proof.
  exact (open_missing_port (mkM sample_closed_connection []) 41 true
           None None None None eq_refl (or_introl (conj eq_refl eq_refl))).
Defined.

End ConnectionClaims.

(** * Further properties of the codec *)

Section CodecProperties.

(** X1: [encode] succeeds exactly on the packets whose ports are integers of
    16 bits, whose numbers have 32 bits and whose payload has at most 65535
    bytes; on every other packet it raises [struct.error]. *)
Theorem encode_succeeds_iff (p : RDPPacket.t) :
  RDPPacket.encode p <> None <->
  exists sp dp,
    RDPPacket.source_port p = Some sp /\ RDPPacket.dest_port p = Some dp /\
    0 <= sp < 65536 /\ 0 <= dp < 65536 /\
    0 <= RDPPacket.seq_num p < 4294967296 /\
    0 <= RDPPacket.ack_num p < 4294967296 /\
    Z.of_nat (length (RDPPacket.data p)) <= 65535.
Proof.
  rewrite encode_Some_iff, encodable_true. unfold RDPPacket.data_length.
  split; intros (sp & dp & H1 & H2 & H3 & H4 & H5 & H6 & H7);
    exists sp, dp; repeat split; auto; lia.
Qed.

(** X2: The layout of an encoded packet: 22 bytes of header, then the payload
    as it is; the first byte holds the version 1 in its high half, the
    second byte the header length 9. *)
Theorem encode_layout (p : RDPPacket.t) (packet_bytes : bytes) :
  RDPPacket.encode p = Some packet_bytes ->
  length packet_bytes = (22 + length (RDPPacket.data p))%nat
  /\ skipn 22 packet_bytes = RDPPacket.data p
  /\ (exists b0 rest, packet_bytes = b0 :: x09 :: rest /\ byte_val b0 / 16 = 1).
Proof.
  intros He.
  assert (encodable p = true) as Hok by (apply encode_Some_iff; congruence).
  pose proof Hok as Hf. apply encodable_true in Hf as (sp & dp & Hsp & Hdp & _).
  destruct (encode_encodable p sp dp Hsp Hdp Hok) as (header & Henc & Hlen & Hun).
  rewrite He in Henc. injection Henc as ->.
  split; [rewrite length_app; lia|].
  split; [rewrite skipn_app, Hlen, Nat.sub_diag, skipn_all2 by lia; reflexivity|].
  unfold struct.unpack in Hun. rewrite Hlen in Hun. cbn [RDPPacket.header_format
    struct.calcsize struct.size Nat.add Nat.eqb struct.unpack_fields] in Hun.
  injection Hun as Hcv _.
  destruct header as [|b0 [|b1 rest]]; try discriminate.
  cbn [firstn] in Hcv. rewrite from_bytes_big_2 in Hcv.
  pose proof (byte_val_range b0) as R0. pose proof (byte_val_range b1) as R1.
  pose proof (control_and_version_low_byte p) as Hlow.
  change 0xFF with (Z.ones 8) in Hlow. rewrite Z.land_ones in Hlow by lia.
  change (2 ^ 8) with 256 in Hlow.
  assert (byte_val b1 = 9) as Hb1.
  { rewrite <- Hcv in Hlow. rewrite Z.add_comm, Z.mod_add in Hlow by lia.
    rewrite Z.mod_small in Hlow by lia. exact Hlow. }
  exists b0, (rest ++ RDPPacket.data p). split.
  - cbn [app]. f_equal. f_equal.
    rewrite <- (byte_of_val b1), Hb1. reflexivity.
  - assert (byte_val b0 = RDPPacket.control_and_version p / 256) as ->.
    { rewrite <- Hcv, Z.div_add_l by lia. rewrite (Z.div_small (byte_val b1)); lia. }
    unfold RDPPacket.control_and_version.
    destruct (RDPPacket.syn p), (RDPPacket.ack p), (RDPPacket.eack p),
      (RDPPacket.rst p), (RDPPacket.nul p); reflexivity.
Qed.

Lemma encode_layout_witness :
  length [x10; x09; x27; x10; x23; x28; x00; x00; x00; x03; x00; x00; x00; x07;
          x00; x00; x00; x03; x00; x00; x4d; x30; x68; x69; x21]
  = (22 + length (RDPPacket.data sample_data_packet))%nat
  /\ skipn 22 [x10; x09; x27; x10; x23; x28; x00; x00; x00; x03; x00; x00; x00; x07;
               x00; x00; x00; x03; x00; x00; x4d; x30; x68; x69; x21]
     = RDPPacket.data sample_data_packet
  /\ (exists b0 rest,
        [x10; x09; x27; x10; x23; x28; x00; x00; x00; x03; x00; x00; x00; x07;
         x00; x00; x00; x03; x00; x00; x4d; x30; x68; x69; x21] = b0 :: x09 :: rest
        /\ byte_val b0 / 16 = 1).
Proof.
  apply (encode_layout sample_data_packet). vm_compute. reflexivity.
Defined.

(** X3: Decoding what [encode] produced gives the ports, the numbers and the
    payload back, with SYN and RST set and the other flags clear; so the
    packets that carry exactly SYN and RST are the ones that survive the
    round trip unchanged. *)
Theorem decode_encode_fields (p : RDPPacket.t) (packet_bytes : bytes) :
  RDPPacket.encode p = Some packet_bytes ->
  RDPPacket.decode packet_bytes = Some (as_decoded p)
  /\ (RDPPacket.decode packet_bytes = Some p <->
      RDPPacket.syn p = true /\ RDPPacket.ack p = false /\ RDPPacket.eack p = false
      /\ RDPPacket.rst p = true /\ RDPPacket.nul p = false).
Proof.
  intros He.
  assert (encodable p = true) as Hok by (apply encode_Some_iff; congruence).
  destruct (decode_encode p Hok) as (wire & He' & Hd).
  rewrite He in He'. injection He' as <-.
  split; [exact Hd|]. rewrite Hd. destruct p as [sp dp sq ak d f1 f2 f3 f4 f5].
  cbn [RDPPacket.syn RDPPacket.ack RDPPacket.eack RDPPacket.rst RDPPacket.nul
       RDPPacket.source_port RDPPacket.dest_port RDPPacket.seq_num RDPPacket.ack_num
       RDPPacket.data].
  split.
  - intros [= <- <- <- <- <-]. auto.
  - intros (-> & -> & -> & -> & ->). reflexivity.
Qed.

Lemma decode_encode_fields_witness :
  RDPPacket.decode
    [x10; x09; x27; x10; x23; x28; x00; x00; x00; x03; x00; x00; x00; x07;
     x00; x00; x00; x03; x00; x00; x4d; x30; x68; x69; x21]
  = Some (as_decoded sample_data_packet)
  /\ (RDPPacket.decode
        [x10; x09; x27; x10; x23; x28; x00; x00; x00; x03; x00; x00; x00; x07;
         x00; x00; x00; x03; x00; x00; x4d; x30; x68; x69; x21]
      = Some sample_data_packet <->
      RDPPacket.syn sample_data_packet = true
      /\ RDPPacket.ack sample_data_packet = false
      /\ RDPPacket.eack sample_data_packet = false
      /\ RDPPacket.rst sample_data_packet = true
      /\ RDPPacket.nul sample_data_packet = false).
Proof.
  apply (decode_encode_fields sample_data_packet). vm_compute. reflexivity.
Defined.

(** X4: The NUL flag never reaches the wire: its bit in the control word is the
    bit of the version, which is always set, and the checksum does not cover
    the flags.  Two packets that differ in NUL only are encoded alike. *)
Theorem encode_ignores_nul (p : RDPPacket.t) (nul : bool) :
  RDPPacket.encode (with_nul nul p) = RDPPacket.encode p.
Proof.
  unfold RDPPacket.encode.
  assert (RDPPacket.control_and_version (with_nul nul p)
          = RDPPacket.control_and_version p) as ->.
  { unfold RDPPacket.control_and_version, with_nul.
    cbn [RDPPacket.syn RDPPacket.ack RDPPacket.eack RDPPacket.rst RDPPacket.nul].
    destruct (RDPPacket.syn p), (RDPPacket.ack p), (RDPPacket.eack p),
      (RDPPacket.rst p), (RDPPacket.nul p), nul; reflexivity. }
  reflexivity.
Qed.

Lemma app_eq_same_length {A : Type} (a b c d : list A) :
  length a = length b -> a ++ c = b ++ d -> a = b /\ c = d.
Proof.
  revert b. induction a as [|x a IH]; intros [|y b] Hl He; try discriminate.
  - auto.
  - cbn [app] in He. injection He as -> He. injection Hl as Hl.
    destruct (IH b Hl He) as [-> ->]. auto.
Qed.

(** X5: Apart from NUL, [encode] loses nothing: two packets with the same
    encoding have the same ports, numbers and payload and the same SYN, ACK,
    EACK and RST flags. *)
Theorem encode_injective_up_to_nul (p q : RDPPacket.t) (packet_bytes : bytes) :
  RDPPacket.encode p = Some packet_bytes ->
  RDPPacket.encode q = Some packet_bytes ->
  with_nul false p = with_nul false q.
Proof.
  intros Hp Hq.
  assert (encodable p = true) as Okp by (apply encode_Some_iff; congruence).
  assert (encodable q = true) as Okq by (apply encode_Some_iff; congruence).
  pose proof Okp as Fp. apply encodable_true in Fp as (sp & dp & Hsp & Hdp & _).
  pose proof Okq as Fq. apply encodable_true in Fq as (sq & dq & Hsq & Hdq & _).
  destruct (encode_encodable p sp dp Hsp Hdp Okp) as (hp & Ep & Lp & Up).
  destruct (encode_encodable q sq dq Hsq Hdq Okq) as (hq & Eq & Lq & Uq).
  rewrite Hp in Ep. rewrite Hq in Eq. injection Ep as Ep. injection Eq as Eq.
  destruct (app_eq_same_length hp hq (RDPPacket.data p) (RDPPacket.data q)
              ltac:(congruence) ltac:(congruence)) as [Hh Hdata].
  subst hq. rewrite Up in Uq. injection Uq as Hcv -> -> _ Hseq Hack _.
  destruct p as [sp' dp' seqp ackp datap f1 f2 f3 f4 f5].
  destruct q as [sq' dq' seqq ackq dataq g1 g2 g3 g4 g5].
  cbn [RDPPacket.source_port RDPPacket.dest_port RDPPacket.seq_num RDPPacket.ack_num
       RDPPacket.data] in *.
  subst. unfold with_nul.
  cbn [RDPPacket.source_port RDPPacket.dest_port RDPPacket.seq_num RDPPacket.ack_num
       RDPPacket.data RDPPacket.syn RDPPacket.ack RDPPacket.eack RDPPacket.rst].
  unfold RDPPacket.control_and_version in Hcv.
  cbn [RDPPacket.syn RDPPacket.ack RDPPacket.eack RDPPacket.rst RDPPacket.nul] in Hcv.
  destruct f1, f2, f3, f4, f5, g1, g2, g3, g4, g5;
    first [reflexivity | exfalso; revert Hcv; vm_compute; discriminate].
Qed.

Lemma encode_injective_up_to_nul_witness :
  with_nul false (with_nul true sample_data_packet) = with_nul false sample_data_packet.
Proof.
  apply (encode_injective_up_to_nul (with_nul true sample_data_packet) sample_data_packet
           [x10; x09; x27; x10; x23; x28; x00; x00; x00; x03; x00; x00; x00; x07;
            x00; x00; x00; x03; x00; x00; x4d; x30; x68; x69; x21]);
    vm_compute; reflexivity.
Defined.

(** X6: The checksum of an encoded packet can be verified on the receiving
    side: the checksum that [compute_checksum] gives for the decoded packet
    is the number in the checksum field of the datagram, although the decoded
    flags are not those that were sent. *)
Theorem encoded_checksum_verifies (p : RDPPacket.t) (packet_bytes : bytes) :
  RDPPacket.encode p = Some packet_bytes ->
  exists p',
    RDPPacket.decode packet_bytes = Some p'
    /\ RDPPacket.compute_checksum p' = Some (checksum_field packet_bytes)
    /\ 0 <= checksum_field packet_bytes < 65536.
Proof.
  intros He.
  assert (encodable p = true) as Hok by (apply encode_Some_iff; congruence).
  destruct (decode_encode p Hok) as (wire & He' & Hd).
  rewrite He in He'. injection He' as <-.
  pose proof Hok as Hf. apply encodable_true in Hf as (sp & dp & Hsp & Hdp & R).
  destruct (encode_encodable p sp dp Hsp Hdp Hok) as (header & Henc & Hlen & Hun).
  rewrite He in Henc. injection Henc as ->.
  exists (as_decoded p). split; [exact Hd|].
  assert (checksum_field (header ++ RDPPacket.data p)
          = low_tail_checksum sp dp (RDPPacket.data_length p) (RDPPacket.seq_num p)
              (RDPPacket.ack_num p) (RDPPacket.data p)) as ->.
  { unfold checksum_field.
    do 23 (destruct header as [|? header]; try discriminate).
    injection Hun as _ _ _ _ _ _ Hck. exact Hck. }
  split.
  - apply (compute_checksum_encodable (as_decoded p) sp dp Hsp Hdp).
    unfold encodable, valid, as_decoded in *.
    cbn [RDPPacket.source_port RDPPacket.dest_port RDPPacket.seq_num
         RDPPacket.ack_num RDPPacket.data RDPPacket.data_length] in *. exact Hok.
  - apply low_tail_checksum_range; lia.
Qed.

Lemma encoded_checksum_verifies_witness :
  exists p',
    RDPPacket.decode
      [x10; x09; x27; x10; x23; x28; x00; x00; x00; x03; x00; x00; x00; x07;
       x00; x00; x00; x03; x00; x00; x4d; x30; x68; x69; x21] = Some p'
    /\ RDPPacket.compute_checksum p'
       = Some (checksum_field
                 [x10; x09; x27; x10; x23; x28; x00; x00; x00; x03; x00; x00; x00; x07;
                  x00; x00; x00; x03; x00; x00; x4d; x30; x68; x69; x21])
    /\ 0 <= checksum_field
              [x10; x09; x27; x10; x23; x28; x00; x00; x00; x03; x00; x00; x00; x07;
               x00; x00; x00; x03; x00; x00; x4d; x30; x68; x69; x21] < 65536.
Proof.
  apply (encoded_checksum_verifies sample_data_packet). vm_compute. reflexivity.
Defined.

Lemma low_tail_words_app (a b : bytes) :
  Nat.even (length a) = true ->
  be16_words_low_tail (a ++ b) = be16_words_low_tail a ++ be16_words_low_tail b.
Proof.
  induction a as [| x | x y l IH] using list_pair_ind;
    cbn [length Nat.even]; intros H.
  - reflexivity.
  - discriminate.
  - cbn [app be16_words_low_tail]. now rewrite (IH H).
Qed.

Lemma sum_list_app (l1 l2 : list Z) : sum_list (l1 ++ l2) = sum_list l1 + sum_list l2.
Proof.
  unfold sum_list. induction l1 as [|x l1 IH]; cbn [app fold_right]; lia.
Qed.

(** X7: The checksum is a sum of 16-bit words and cannot see their order: two
    adjacent blocks of even length that start at an even offset of the
    payload may change places, whatever comes before and after them, without
    any change of the checksum. *)
Theorem checksum_blind_to_block_order (p : RDPPacket.t) (before a b after : bytes) :
  Nat.even (length before) = true ->
  Nat.even (length a) = true -> Nat.even (length b) = true ->
  RDPPacket.compute_checksum (with_data (before ++ a ++ b ++ after) p)
  = RDPPacket.compute_checksum (with_data (before ++ b ++ a ++ after) p).
Proof.
  intros Hp Ha Hb. unfold RDPPacket.compute_checksum, with_data, RDPPacket.data_length.
  cbn [RDPPacket.source_port RDPPacket.dest_port RDPPacket.seq_num RDPPacket.ack_num
       RDPPacket.data].
  replace (length (before ++ b ++ a ++ after))
    with (length (before ++ a ++ b ++ after)) by (rewrite !length_app; lia).
  destruct (struct.pack _ _) as [header_data|]; [|reflexivity].
  cbv zeta. rewrite !(sum_words_low_tail (_ ++ _)).
  rewrite !(low_tail_words_app before _ Hp).
  rewrite (low_tail_words_app a _ Ha), (low_tail_words_app b _ Hb).
  rewrite (low_tail_words_app b _ Hb), (low_tail_words_app a _ Ha).
  rewrite !sum_list_app.
  replace (sum_list (be16_words_low_tail b)
           + (sum_list (be16_words_low_tail a) + sum_list (be16_words_low_tail after)))
    with (sum_list (be16_words_low_tail a)
          + (sum_list (be16_words_low_tail b) + sum_list (be16_words_low_tail after)))
    by lia.
  reflexivity.
Qed.

Lemma checksum_blind_to_block_order_witness :
  RDPPacket.compute_checksum
    (with_data ([x00; x01] ++ [x68; x69] ++ [x21; x21; x02; x03] ++ [x04])
       sample_data_packet)
  = RDPPacket.compute_checksum
      (with_data ([x00; x01] ++ [x21; x21; x02; x03] ++ [x68; x69] ++ [x04])
         sample_data_packet).
Proof.
  exact (checksum_blind_to_block_order sample_data_packet
           [x00; x01] [x68; x69] [x21; x21; x02; x03] [x04] eq_refl eq_refl eq_refl).
Defined.

(** The offset matters: after one byte the same two blocks fall across the
    words, and the checksum tells the two orders apart. *)
Lemma checksum_sees_block_order_at_odd_offset :
  RDPPacket.compute_checksum
    (with_data ([x01] ++ [x02; x03] ++ [x04; x05]) sample_data_packet) = Some 45485
  /\ RDPPacket.compute_checksum
       (with_data ([x01] ++ [x04; x05] ++ [x02; x03]) sample_data_packet) = Some 44975.
Proof. vm_compute. split; reflexivity. Qed.

Lemma from_bytes_big_firstn (n : nat) (l : bytes) :
  0 <= from_bytes_big (firstn n l) < 256 ^ Z.of_nat n.
Proof.
  pose proof (from_bytes_big_range (firstn n l)) as [H0 H1].
  split; [exact H0|].
  eapply Z.lt_le_trans; [exact H1|].
  apply Z.pow_le_mono_r; [lia|]. rewrite length_firstn. lia.
Qed.

(** X8: Whatever the bytes, a packet that [decode] returns has integer ports of
    16 bits and numbers of 32 bits; when the datagram had at most 65557 bytes
    the packet can be encoded again. *)
Theorem decode_valid (packet_bytes : bytes) (p : RDPPacket.t) :
  RDPPacket.decode packet_bytes = Some p ->
  valid p = true
  /\ (Z.of_nat (length packet_bytes) <= 65557 -> RDPPacket.encode p <> None).
Proof.
  intros Hd.
  assert (valid p = true /\ RDPPacket.data p = skipn 22 packet_bytes) as [Hv Hdata].
  { revert Hd. unfold RDPPacket.decode, struct.unpack.
    destruct (Nat.eqb _ _); [|discriminate].
    cbn [RDPPacket.header_format struct.unpack_fields struct.size].
    intros Hd.
    apply (f_equal (fun o => match o with Some x => x | None => p end)) in Hd.
    cbv beta iota in Hd. subst p. split; [|reflexivity].
    unfold valid.
    cbn [RDPPacket.source_port RDPPacket.dest_port RDPPacket.seq_num
         RDPPacket.ack_num port_ok].
    rewrite !andb_true_iff, !u16_true, !u32_true.
    repeat match goal with
           | |- _ <= from_bytes_big (firstn ?n ?l) < _ =>
               exact (from_bytes_big_firstn n l)
           | |- _ /\ _ => split
           end. }
  split; [exact Hv|].
  intros Hlen. apply encode_Some_iff. unfold encodable. rewrite Hv. cbn [andb].
  apply Z.ltb_lt. unfold RDPPacket.data_length. rewrite Hdata, length_skipn. lia.
Qed.

Lemma decode_valid_witness :
  valid (RDPPacket.mk (Some 10000) (Some 9000) 7 3 [] true false false true false) = true
  /\ (Z.of_nat (length sample_short_datagram) <= 65557 ->
      RDPPacket.encode
        (RDPPacket.mk (Some 10000) (Some 9000) 7 3 [] true false false true false)
      <> None).
Proof.
  exact (decode_valid sample_short_datagram _ eq_refl).
Defined.

End CodecProperties.

(** * Further properties of the connection *)

Section ConnectionProperties.

Import RDPConnection.

Ltac fields :=
  cbn [self sent snd fst state SND_ISS SND_NXT SND_UNA RCV_CUR RCV_MAX data_buffer
       source_port dest_port SND_MAX RMAX_BUF local_port remote_address
       set_state set_SND_ISS set_SND_NXT set_SND_UNA set_RCV_CUR set_RCV_MAX
       set_data_buffer set_source_port set_SND_MAX set_RMAX_BUF set_local_port
       with_open_counters reset] in *.

(** An active [open] of a CLOSED connection, step by step. *)
Lemma open_active_run (c : t) (out : list (bytes * option address)) (iss rp : Z)
    (lp smax rbuf : option Z) :
  state c = CLOSED ->
  open iss false lp (Some rp) smax rbuf (mkM c out)
  = let c1 := with_open_counters iss smax rbuf c in
    let c2 := match lp with
              | None => set_source_port (Some 10000) c1
              | Some _ => c1
              end in
    match RDPPacket.encode (syn_packet (source_port c2) rp iss) with
    | Some wire =>
        (Return (VStr "Connection opened in state SYN-SENT"),
         mkM (set_state SYN_SENT c2) (out ++ [(wire, remote_address c)]))
    | None => (Raise struct_error, mkM (set_state SYN_SENT c2) out)
    end.
Proof.
  intros Hst. cbv zeta.
  unfold open, opened, allocate_local_port, send_packet, bind, get, ret, modify,
    lift_struct, sendto.
  cbn [self sent]. rewrite Hst. cbn [State_eqb negb self sent].
  destruct lp as [l|]; fields; unfold syn_packet;
    match goal with
    | |- context [RDPPacket.encode ?p] => destruct (RDPPacket.encode p)
    end; reflexivity.
Qed.

(** X9: An active [open] of a CLOSED connection succeeds whenever the ports
    are 16-bit integers: the initial sequence number, drawn between 0 and
    10000, always fits.  It sends exactly one SYN packet with
    [seq_num = SND_ISS] and [ack_num = 0] and moves to SYN-SENT.  The local
    port passed to [open] is not stored: the source port becomes 10000 when
    none is passed, and stays what it was otherwise. *)
Theorem open_active_succeeds (m : machine) (iss rp : Z) (lp smax rbuf : option Z) :
  state (self m) = CLOSED ->
  initial_sequence_number iss ->
  0 <= rp < 65536 ->
  (lp = None \/ port_ok (source_port (self m)) = true) ->
  let src := match lp with None => Some 10000 | Some _ => source_port (self m) end in
  let c1 := with_open_counters iss smax rbuf (self m) in
  let c2 := match lp with None => set_source_port (Some 10000) c1 | Some _ => c1 end in
  exists wire,
    RDPPacket.encode (syn_packet src rp iss) = Some wire
    /\ open iss false lp (Some rp) smax rbuf m
       = (Return (VStr "Connection opened in state SYN-SENT"),
          mkM (set_state SYN_SENT c2) (sent m ++ [(wire, remote_address (self m))])).
Proof.
  destruct m as [c out]. cbn [self sent]. intros Hst Hiss Hrp Hsrc. cbv zeta.
  rewrite (open_active_run c out iss rp lp smax rbuf Hst). cbv zeta.
  assert (source_port match lp with
                      | None => set_source_port (Some 10000)
                                  (with_open_counters iss smax rbuf c)
                      | Some _ => with_open_counters iss smax rbuf c
                      end
          = match lp with None => Some 10000 | Some _ => source_port c end) as ->
    by (destruct lp; reflexivity).
  set (src := match lp with None => Some 10000 | Some _ => source_port c end).
  assert (encodable (syn_packet src rp iss) = true) as He.
  { apply valid_empty_encodable; [|reflexivity].
    unfold valid, syn_packet.
    cbn [RDPPacket.source_port RDPPacket.dest_port RDPPacket.seq_num
         RDPPacket.ack_num port_ok].
    unfold initial_sequence_number in Hiss.
    assert (port_ok src = true) as ->.
    { subst src. destruct lp; [|reflexivity]. destruct Hsrc; [discriminate|assumption]. }
    rewrite !andb_true_iff, u16_true, !u32_true. repeat split; lia. }
  destruct (RDPPacket.encode (syn_packet src rp iss)) as [wire|] eqn:Henc.
  - exists wire. split; reflexivity.
  - apply encode_Some_iff in He. contradiction.
Qed.

Lemma open_active_succeeds_witness :
  let src := Some 10000 in
  let c1 := with_open_counters 41 None None sample_closed_connection in
  let c2 := set_source_port (Some 10000) c1 in
  exists wire,
    RDPPacket.encode (syn_packet src 9000 41) = Some wire
    /\ open 41 false None (Some 9000) None None (mkM sample_closed_connection [])
       = (Return (VStr "Connection opened in state SYN-SENT"),
          mkM (set_state SYN_SENT c2) ([] ++ [(wire, Some sample_peer)])).
Proof.
  apply (open_active_succeeds (mkM sample_closed_connection []) 41 9000 None None None).
  - reflexivity.
  - unfold initial_sequence_number. lia.
  - lia.
  - left. reflexivity.
Defined.

(** X10: When the SYN packet of an active [open] cannot be encoded (the source
    port of the connection is [None] or out of range and a local port was
    passed, or the remote port is out of range), [open] raises after it has
    set the counters and the state: nothing is sent and the connection is
    left in SYN-SENT, where a further [open] is refused. *)
Theorem open_active_failed_syn (m : machine) (iss rp : Z) (lp smax rbuf : option Z) :
  state (self m) = CLOSED ->
  let src := match lp with None => Some 10000 | Some _ => source_port (self m) end in
  encodable (syn_packet src rp iss) = false ->
  let m' := snd (open iss false lp (Some rp) smax rbuf m) in
  fst (open iss false lp (Some rp) smax rbuf m) = Raise struct_error
  /\ state (self m') = SYN_SENT
  /\ sent m' = sent m
  /\ SND_ISS (self m') = iss
  /\ forall iss' passive lp' rp' smax' rbuf',
       open iss' passive lp' rp' smax' rbuf' m' = (Return (VStr AlreadyOpen), m').
Proof.
  destruct m as [c out]. cbn [self sent]. intros Hst He. cbv zeta.
  set (src := match lp with None => Some 10000 | Some _ => source_port c end) in *.
  rewrite (open_active_run c out iss rp lp smax rbuf Hst). cbv zeta.
  assert (source_port match lp with
                      | None => set_source_port (Some 10000)
                                  (with_open_counters iss smax rbuf c)
                      | Some _ => with_open_counters iss smax rbuf c
                      end = src) as ->
    by (subst src; destruct lp; reflexivity).
  rewrite (encode_not_encodable _ He). cbn [fst snd self sent].
  split; [reflexivity|]. split; [reflexivity|]. split; [reflexivity|].
  split; [destruct lp; reflexivity|].
  intros. reflexivity.
Qed.

Lemma open_active_failed_syn_witness :
  let m := mkM (init (Some sample_peer) None (Some 9000)) [] in
  let m' := snd (open 41 false (Some 5000) (Some 9000) None None m) in
  fst (open 41 false (Some 5000) (Some 9000) None None m) = Raise struct_error
  /\ state (self m') = SYN_SENT
  /\ sent m' = sent m
  /\ SND_ISS (self m') = 41
  /\ forall iss' passive lp' rp' smax' rbuf',
       open iss' passive lp' rp' smax' rbuf' m' = (Return (VStr AlreadyOpen), m').
Proof.
  exact (open_active_failed_syn (mkM (init (Some sample_peer) None (Some 9000)) [])
           41 9000 (Some 5000) None None eq_refl eq_refl).
Defined.

(** X11: After [open] has returned its success string, the connection is in
    LISTEN (passive) or SYN-SENT (active), and any further [open] returns
    AlreadyOpen without drawing a sequence number or touching anything. *)
Theorem open_twice (m : machine) (iss : Z) (passive : bool)
    (lp rp smax rbuf : option Z) (st : State) :
  state (self m) = CLOSED ->
  fst (open iss passive lp rp smax rbuf m)
  = Return (VStr ("Connection opened in state " ++ State_str st)) ->
  let m' := snd (open iss passive lp rp smax rbuf m) in
  state (self m') = (if passive then LISTEN else SYN_SENT)
  /\ st = state (self m')
  /\ forall iss' passive' lp' rp' smax' rbuf',
       open iss' passive' lp' rp' smax' rbuf' m' = (Return (VStr AlreadyOpen), m').
Proof.
  destruct m as [c out]. cbn [self sent]. intros Hst Hok. cbv zeta.
  assert (state (self (snd (open iss passive lp rp smax rbuf (mkM c out))))
          = (if passive then LISTEN else SYN_SENT)
          /\ st = (if passive then LISTEN else SYN_SENT)) as [Hs ->].
  { destruct passive.
    - revert Hok. unfold open, opened, bind, get, ret, modify. cbn [self sent].
      rewrite Hst. cbn [State_eqb negb self sent].
      destruct lp; cbn [fst snd self sent]; fields.
      + destruct st; intros [= ]; auto.
      + discriminate.
    - destruct rp as [rp|].
      + revert Hok. rewrite (open_active_run c out iss rp lp smax rbuf Hst). cbv zeta.
        destruct (RDPPacket.encode _); cbn [fst snd self]; fields.
        * destruct st; intros [= ]; auto.
        * discriminate.
      + revert Hok. unfold open, opened, bind, get, ret, modify. cbn [self sent].
        rewrite Hst. cbn [State_eqb negb self sent fst]. discriminate. }
  split; [exact Hs|]. split; [now rewrite Hs|].
  intros.
  destruct (open iss passive lp rp smax rbuf (mkM c out)) as [r [c' out']].
  cbn [snd self] in *. unfold open, bind, get, ret. cbn [self sent].
  rewrite Hs. destruct passive; reflexivity.
Qed.

Lemma open_twice_witness :
  let m' := snd (open 41 true (Some 9000) None None None
                   (mkM sample_closed_connection [])) in
  state (self m') = LISTEN
  /\ LISTEN = state (self m')
  /\ forall iss' passive' lp' rp' smax' rbuf',
       open iss' passive' lp' rp' smax' rbuf' m' = (Return (VStr AlreadyOpen), m').
Proof.
  exact (open_twice (mkM sample_closed_connection []) 41 true (Some 9000) None None None
           LISTEN eq_refl eq_refl).
Defined.

(** X12: [handle_syn_packet] on a listening connection and a packet with SYN:
    the sequence number of the packet becomes [RCV_CUR] first; then one
    SYN+ACK packet with [seq_num = SND_ISS] and [ack_num] that number goes out
    to the source port of the packet and the state becomes SYN-RCVD.  When
    that reply cannot be encoded the call raises with [RCV_CUR] already
    overwritten and the state still LISTEN.  In any other state, or without
    SYN, the call does nothing. *)
Theorem handle_syn_packet_spec (m : machine) (p : RDPPacket.t) :
  let c := self m in
  let c1 := set_RCV_CUR (RDPPacket.seq_num p) c in
  let reply := syn_ack_packet c1 (RDPPacket.source_port p) in
  (state c = LISTEN -> RDPPacket.syn p = true ->
   match RDPPacket.encode reply with
   | Some wire =>
       handle_syn_packet p m
       = (Return VNone,
          mkM (set_state SYN_RCVD c1) (sent m ++ [(wire, remote_address c)]))
   | None => handle_syn_packet p m = (Raise struct_error, mkM c1 (sent m))
   end)
  /\ (state c <> LISTEN \/ RDPPacket.syn p = false ->
      handle_syn_packet p m = (Return VNone, m)).
Proof.
  destruct m as [c out]. cbn [self sent]. split.
  - intros Hst Hsyn.
    unfold handle_syn_packet, send_syn_ack, send_packet, bind, get, ret, modify,
      lift_struct, sendto.
    cbn [self sent]. rewrite Hst, Hsyn. cbn [State_eqb andb self sent].
    fold (syn_ack_packet (set_RCV_CUR (RDPPacket.seq_num p) c) (RDPPacket.source_port p)).
    destruct (RDPPacket.encode _); reflexivity.
  - intros H. unfold handle_syn_packet, bind, get, ret. cbn [self sent].
    destruct H as [H | ->].
    + destruct (state c); try contradiction; reflexivity.
    + now rewrite andb_false_r.
Qed.

(** X13: [handle_syn_ack_packet] on a connection in SYN-SENT and a packet with
    SYN and ACK: [RCV_CUR] becomes the sequence number of the packet, one ACK
    packet with [seq_num = SND_NXT] and [ack_num = RCV_CUR] goes out to the
    source port of the packet and the state becomes OPEN; when the ACK cannot
    be encoded the call raises with [RCV_CUR] overwritten and the state still
    SYN-SENT.  In any other state, or without both flags, nothing happens. *)
Theorem handle_syn_ack_packet_spec (m : machine) (p : RDPPacket.t) :
  let c := self m in
  let c1 := set_RCV_CUR (RDPPacket.seq_num p) c in
  let reply := ack_packet c1 (RDPPacket.source_port p) in
  (state c = SYN_SENT -> RDPPacket.syn p = true -> RDPPacket.ack p = true ->
   match RDPPacket.encode reply with
   | Some wire =>
       handle_syn_ack_packet p m
       = (Return VNone,
          mkM (set_state OPEN c1) (sent m ++ [(wire, remote_address c)]))
   | None => handle_syn_ack_packet p m = (Raise struct_error, mkM c1 (sent m))
   end)
  /\ (state c <> SYN_SENT \/ RDPPacket.syn p = false \/ RDPPacket.ack p = false ->
      handle_syn_ack_packet p m = (Return VNone, m)).
Proof.
  destruct m as [c out]. cbn [self sent]. split.
  - intros Hst Hsyn Hack.
    unfold handle_syn_ack_packet, send_ack, send_packet, bind, get, ret, modify,
      lift_struct, sendto.
    cbn [self sent]. rewrite Hst, Hsyn, Hack. cbn [State_eqb andb self sent].
    fold (ack_packet (set_RCV_CUR (RDPPacket.seq_num p) c) (RDPPacket.source_port p)).
    destruct (RDPPacket.encode _); reflexivity.
  - intros H. unfold handle_syn_ack_packet, bind, get, ret. cbn [self sent].
    destruct H as [H | [-> | ->]].
    + destruct (state c); try contradiction; reflexivity.
    + now rewrite andb_false_r.
    + now rewrite andb_false_r.
Qed.

(** X14: [handle_data_packet] on an OPEN connection and a packet with payload:
    the payload is appended to the buffer, and one ACK packet with
    [seq_num = SND_NXT] and [ack_num = RCV_CUR] goes out to the source port of
    the packet; no counter moves, [RCV_CUR] included, whatever the sequence
    number of the packet is.  When the ACK cannot be encoded the call raises
    with the payload already in the buffer. *)
Theorem handle_data_packet_spec (m : machine) (p : RDPPacket.t) :
  let c := self m in
  let c1 := set_data_buffer (data_buffer c ++ RDPPacket.data p) c in
  let reply := ack_packet c (RDPPacket.source_port p) in
  (state c = OPEN -> RDPPacket.data p <> [] ->
   match RDPPacket.encode reply with
   | Some wire =>
       handle_data_packet p m
       = (Return VNone, mkM c1 (sent m ++ [(wire, remote_address c)]))
   | None => handle_data_packet p m = (Raise struct_error, mkM c1 (sent m))
   end)
  /\ (state c <> OPEN \/ RDPPacket.data p = [] ->
      handle_data_packet p m = (Return VNone, m)).
Proof.
  destruct m as [c out]. cbn [self sent]. split.
  - intros Hst Hd.
    unfold handle_data_packet, send_ack, send_packet, bind, get, ret, modify,
      lift_struct, sendto.
    cbn [self sent]. rewrite Hst.
    destruct (RDPPacket.data p) as [|b d] eqn:Ed; [contradiction|].
    cbn [State_eqb andb nonempty self sent]. fields.
    fold (ack_packet c (RDPPacket.source_port p)).
    destruct (RDPPacket.encode _); reflexivity.
  - intros H. unfold handle_data_packet, bind, get, ret. cbn [self sent].
    destruct H as [H | ->].
    + destruct (state c); try contradiction; reflexivity.
    + cbn [nonempty]. now rewrite andb_false_r.
Qed.

(** What [decode] makes of a packet that [encode] produced. *)
Lemma decode_of_encode (q p : RDPPacket.t) (wire : bytes) :
  RDPPacket.encode q = Some wire -> RDPPacket.decode wire = Some p -> p = as_decoded q.
Proof.
  intros He Hd.
  assert (encodable q = true) as Hok by (apply encode_Some_iff; congruence).
  destruct (decode_encode q Hok) as (wire' & He' & Hd').
  rewrite He in He'. injection He' as <-. unfold as_decoded. congruence.
Qed.

(** The dispatch of a listening connection on a packet with SYN and
    without ACK. *)
Lemma dispatch_listen_syn (c : t) (out : list (bytes * option address))
    (p : RDPPacket.t) :
  state c = LISTEN -> RDPPacket.syn p = true -> RDPPacket.ack p = false ->
  let c1 := set_RCV_CUR (RDPPacket.seq_num p) c in
  dispatch p (mkM c out)
  = match RDPPacket.encode (syn_ack_packet c1 (RDPPacket.source_port p)) with
    | Some wire =>
        (Return (VPacket (RDPPacket.mk (source_port c) (dest_port c) (SND_NXT c)
                            (RDPPacket.seq_num p)
                            (list_byte_of_string "Test response")
                            false false false false false)),
         mkM (set_state SYN_RCVD c1) (out ++ [(wire, remote_address c)]))
    | None => (Raise struct_error, mkM c1 out)
    end.
Proof.
  intros Hst Hsyn Hack. cbv zeta.
  unfold dispatch, handle_syn_packet, send_syn_ack, send_packet, bind, get, ret,
    modify, lift_struct, sendto.
  cbn [self sent]. rewrite Hst, Hsyn, Hack. cbn [andb negb self sent].
  rewrite ?Hst, ?Hsyn. cbn [State_eqb andb self sent].
  fold (syn_ack_packet (set_RCV_CUR (RDPPacket.seq_num p) c) (RDPPacket.source_port p)).
  destruct (RDPPacket.encode _); reflexivity.
Qed.

(** X16: A handshake cannot be completed with packets that went through the
    codec.  Whatever packet the peer encoded, the packet decoded from it has
    SYN set and ACK clear: the dispatch of a listening connection takes it for
    a connection request and records its sequence number, and the dispatch
    of a connection in SYN-SENT or SYN-RCVD, which waits for an ACK, ignores
    it and stays where it is. *)
Theorem wire_packet_in_handshake (q p : RDPPacket.t) (wire : bytes) (m : machine) :
  RDPPacket.encode q = Some wire ->
  RDPPacket.decode wire = Some p ->
  (state (self m) = SYN_SENT \/ state (self m) = SYN_RCVD -> snd (dispatch p m) = m)
  /\ (state (self m) = LISTEN ->
      RCV_CUR (self (snd (dispatch p m))) = RDPPacket.seq_num q
      /\ (state (self (snd (dispatch p m))) = SYN_RCVD
          \/ state (self (snd (dispatch p m))) = LISTEN)).
Proof.
  intros He Hd. rewrite (decode_of_encode q p wire He Hd). split.
  - intros Hst. rewrite dispatch_unhandled; [reflexivity|].
    destruct Hst as [-> | ->]; reflexivity.
  - intros Hst. destruct m as [c out]. cbn [self] in Hst.
    rewrite (dispatch_listen_syn c out (as_decoded q) Hst eq_refl eq_refl).
    clear He Hd.
    destruct (RDPPacket.encode _); cbn [snd self]; fields;
      (split; [reflexivity | first [left; reflexivity | right; exact Hst]]).
Qed.

Lemma wire_packet_in_handshake_witness :
  let m := mkM sample_syn_sent_connection [] in
  let p := as_decoded sample_syn_ack_packet in
  (state (self m) = SYN_SENT \/ state (self m) = SYN_RCVD -> snd (dispatch p m) = m)
  /\ (state (self m) = LISTEN ->
      RCV_CUR (self (snd (dispatch p m))) = RDPPacket.seq_num sample_syn_ack_packet
      /\ (state (self (snd (dispatch p m))) = SYN_RCVD
          \/ state (self (snd (dispatch p m))) = LISTEN)).
Proof.
  apply (wire_packet_in_handshake sample_syn_ack_packet
           (as_decoded sample_syn_ack_packet)
           [x1c; x09; x23; x28; x27; x10; x00; x00; x00; x00; x00; x00; x00; x4d;
            x00; x00; x00; x29; x00; x00; xb5; x51]
           (mkM sample_syn_sent_connection [])); vm_compute; reflexivity.
Defined.

(** The dispatch of an OPEN connection on a packet with RST and without
    payload. *)
Lemma dispatch_open_rst (c : t) (out : list (bytes * option address))
    (p : RDPPacket.t) :
  state c = OPEN -> RDPPacket.data p = [] -> RDPPacket.rst p = true ->
  dispatch p (mkM c out)
  = (Return (VPacket (RDPPacket.mk (source_port c) (dest_port c) 0 0
                        (list_byte_of_string "Test response")
                        false false false false false)),
     mkM (reset c) out).
Proof.
  intros Hst Hd Hrst.
  unfold dispatch, handle_rst_packet, reset_connection, bind, get, ret, modify.
  cbn [self sent]. rewrite Hst, Hd, Hrst. cbn [nonempty self sent].
  rewrite ?Hst, ?Hrst. reflexivity.
Qed.

(** X17: On an OPEN connection, the dispatch resets the connection on every
    packet without payload that went through the codec, an acknowledgement
    for instance: the decoded packet has RST set whatever was sent.  The
    connection ends CLOSED with its counters at zero and its buffer empty,
    and nothing is sent. *)
Theorem wire_empty_packet_resets_open (q p : RDPPacket.t) (wire : bytes) (m : machine) :
  RDPPacket.encode q = Some wire ->
  RDPPacket.decode wire = Some p ->
  RDPPacket.data q = [] ->
  state (self m) = OPEN ->
  snd (dispatch p m) = mkM (reset (self m)) (sent m).
Proof.
  intros He Hd Hdata Hst. rewrite (decode_of_encode q p wire He Hd).
  destruct m as [c out]. cbn [self sent] in *.
  now rewrite (dispatch_open_rst c out (as_decoded q) Hst Hdata eq_refl).
Qed.

Lemma wire_empty_packet_resets_open_witness :
  snd (dispatch (as_decoded sample_ack_packet) sample_open_machine)
  = mkM (reset (self sample_open_machine)) (sent sample_open_machine).
Proof.
  apply (wire_empty_packet_resets_open sample_ack_packet (as_decoded sample_ack_packet)
           [x14; x09; x23; x28; x27; x10; x00; x00; x00; x00; x00; x00; x00; x4e;
            x00; x00; x00; x2a; x00; x00; xb5; x4f]
           sample_open_machine); vm_compute; reflexivity.
Defined.

(** [receive], case by case. *)
Lemma receive_run (c : t) (out : list (bytes * option address)) (payload : bytes)
    (addr : address) :
  receive (payload, addr) (mkM c out)
  = if negb (State_eqb (state c) OPEN) then (Return (VStr NotOpen), mkM c out)
    else if address_ne addr (remote_address c) then (Return (VStr NoPacket), mkM c out)
    else match RDPPacket.decode (firstn 1024 payload) with
         | Some _ => (Raise TypeError, mkM c out)
         | None => (Raise struct_error, mkM c out)
         end.
Proof.
  unfold receive. unfold bind at 1, get. cbn [self sent].
  destruct (negb (State_eqb (state c) OPEN)); [reflexivity|].
  unfold bind at 1. rewrite receive_packet_run.
  destruct (address_ne addr (remote_address c)); [reflexivity|].
  destruct (RDPPacket.decode (firstn 1024 payload)); reflexivity.
Qed.

(** X18: [receive] never returns data and never changes the connection: it
    returns NotOpen or the "no data" string, or it raises; a datagram of the
    peer that [decode] accepts always ends in the [TypeError] of
    [process_packet], so the payload never reaches the buffer. *)
Theorem receive_never_returns_data (m : machine) (payload : bytes) (addr : address) :
  snd (receive (payload, addr) m) = m
  /\ (forall b, fst (receive (payload, addr) m) <> Return (VBytes b))
  /\ (state (self m) = OPEN ->
      address_ne addr (remote_address (self m)) = false ->
      (22 <= length payload)%nat ->
      receive (payload, addr) m = (Raise TypeError, m)).
Proof.
  destruct m as [c out]. cbn [self sent]. rewrite receive_run.
  split; [|split].
  - destruct (negb _); [reflexivity|]. destruct (address_ne _ _); [reflexivity|].
    destruct (RDPPacket.decode _); reflexivity.
  - intros b. destruct (negb _); [discriminate|].
    destruct (address_ne _ _); [discriminate|].
    destruct (RDPPacket.decode _); discriminate.
  - intros Hst Ha Hlen. rewrite Hst, Ha. cbn [State_eqb negb].
    destruct (RDPPacket.decode (firstn 1024 payload)) eqn:Hd; [reflexivity|].
    apply decode_None_iff in Hd. rewrite length_firstn in Hd. lia.
Qed.

Ltac unfold_m :=
  unfold bind, ret, raise, get, modify, lift, lift_struct, getattr, sendto in *.

Ltac through_send_packet :=
  match goal with
  | |- context [send_packet ?p ?m] =>
      let Hs := fresh "Hs" in
      let v := fresh "v" in
      let e := fresh "e" in
      let m' := fresh "m'" in
      pose proof (send_packet_self p m) as Hs;
      destruct (send_packet p m) as [[v|e] m'];
      cbn [snd self sent] in Hs; cbn [snd fst self sent];
      try rewrite Hs
  end.

(** What one call does to the send counters and to [SND_MAX]. *)
Lemma run_send_counters (k : call) (m : machine) :
  let c := self m in
  let c' := self (snd (run k m)) in
  match k with
  | Open iss _ _ _ snd_max _ =>
      c' = c
      \/ (SND_ISS c' = iss /\ SND_NXT c' = iss + 1 /\ SND_UNA c' = iss
          /\ SND_MAX c' = Some (or_default snd_max 10))
  | ResetConnection | HandleRstPacket _ => c' = c \/ c' = reset c
  | Send data =>
      SND_ISS c' = SND_ISS c /\ SND_UNA c' = SND_UNA c /\ SND_MAX c' = SND_MAX c
      /\ (SND_NXT c' = SND_NXT c
          \/ exists snd_max,
               SND_MAX c = Some snd_max
               /\ Z.of_nat (length data) <= snd_max
               /\ SND_NXT c < SND_UNA c + snd_max
               /\ SND_NXT c' = SND_NXT c + Z.of_nat (length data))
  | _ =>
      SND_ISS c' = SND_ISS c /\ SND_NXT c' = SND_NXT c /\ SND_UNA c' = SND_UNA c
      /\ SND_MAX c' = SND_MAX c
  end.
Proof.
  destruct m as [c out]. cbv zeta. cbn [self].
  destruct k; cbn [run].
  - (* open *)
    destruct (State_eqb (state c) CLOSED) eqn:Hst.
    + apply State_eqb_eq in Hst. right.
      destruct (open_counters (mkM c out) iss passive local_port0 remote_port
                  snd_max rmax_buf Hst) as (Hi & Hn & Hu & Hm & _).
      auto.
    + left. unfold open. unfold_m. cbn [self]. rewrite Hst. reflexivity.
  - (* close *)
    rewrite close_run.
    destruct (existsb _ _); [|destruct (State_eqb _ _)];
      try destruct (RDPPacket.encode _); fields; auto.
  - (* send *)
    destruct (State_eqb (state c) OPEN) eqn:Hst.
    + apply State_eqb_eq in Hst. destruct (SND_MAX c) as [snd_max|] eqn:Hmax.
      * rewrite (send_in_open c out data snd_max Hst Hmax).
        destruct (Z.gtb_spec (Z.of_nat (length data)) snd_max);
          [fields; rewrite Hmax; auto|].
        destruct (Z.geb_spec (SND_NXT c) (SND_UNA c + snd_max));
          [fields; rewrite Hmax; auto|].
        destruct (RDPPacket.encode _); fields; rewrite Hmax.
        -- repeat split; auto. right. exists snd_max. repeat split; auto; lia.
        -- auto.
      * unfold send. unfold_m. cbn [self sent]. rewrite Hst.
        cbn [State_eqb negb self sent]. rewrite Hmax. fields. rewrite Hmax. auto.
    + unfold send. unfold_m. cbn [self sent]. rewrite Hst. fields. auto.
  - (* send_packet *)
    rewrite send_packet_self. auto.
  - (* receive_packet *)
    destruct dgram as [payload addr]. rewrite receive_packet_run.
    destruct (address_ne _ _); [auto|]. destruct (RDPPacket.decode _); auto.
  - (* send_ack *)
    unfold send_ack. unfold_m. cbn [self sent]. rewrite send_packet_self. auto.
  - (* send_syn_ack *)
    unfold send_syn_ack. unfold_m. cbn [self sent]. rewrite send_packet_self. auto.
  - (* receive *)
    destruct dgram as [payload addr]. rewrite receive_run.
    destruct (negb _); [auto|]. destruct (address_ne _ _); [auto|].
    destruct (RDPPacket.decode _); auto.
  - (* process_packet *)
    cbn [self snd]. auto.
  - (* handle_syn_packet *)
    unfold handle_syn_packet, send_syn_ack. unfold_m. cbn [self sent].
    destruct (_ && _); [|auto]. cbn [self sent].
    through_send_packet; fields; auto.
  - (* handle_syn_ack_packet *)
    unfold handle_syn_ack_packet, send_ack. unfold_m. cbn [self sent].
    destruct (_ && _); [|auto]. cbn [self sent].
    through_send_packet; fields; auto.
  - (* handle_ack_packet *)
    unfold handle_ack_packet. unfold_m. cbn [self sent].
    destruct (_ && _); fields; auto.
  - (* handle_data_packet *)
    unfold handle_data_packet, send_ack. unfold_m. cbn [self sent].
    destruct (_ && _); [|auto]. cbn [self sent].
    through_send_packet; fields; auto.
  - (* handle_rst_packet *)
    unfold handle_rst_packet, reset_connection. unfold_m. cbn [self sent].
    destruct (_ && _); [right|left]; reflexivity.
  - (* send_rst *)
    unfold send_rst. unfold_m. cbn [self sent]. rewrite send_packet_self. auto.
  - (* listen *)
    unfold listen. unfold_m. destruct bind_error; fields; auto.
  - (* handle_state_transition *)
    unfold handle_state_transition. unfold_m.
    repeat match goal with
           | |- context [String.eqb ?a ?b] => destruct (String.eqb a b)
           end; fields; auto.
  - (* reset_connection *)
    right. reflexivity.
  - (* allocate_local_port *)
    unfold allocate_local_port. unfold_m. fields. auto.
Qed.

(** X19: No acknowledgement ever advances [SND_UNA]: apart from [open] and the
    two ways into [reset_connection], no method changes [SND_UNA] or
    [SND_ISS], and [SND_NXT] never decreases. *)
Theorem SND_UNA_never_advances (k : call) (m : machine) :
  resets_counters k = false ->
  SND_UNA (self (snd (run k m))) = SND_UNA (self m)
  /\ SND_ISS (self (snd (run k m))) = SND_ISS (self m)
  /\ SND_NXT (self m) <= SND_NXT (self (snd (run k m))).
Proof.
  intros Hk. pose proof (run_send_counters k m) as H. cbv zeta in H.
  destruct k; try discriminate Hk;
    try (destruct H as (Hi & Hn & Hu & _); rewrite Hi, Hn, Hu; repeat split; lia).
  destruct H as (Hi & Hu & _ & [Hn | (mx & _ & _ & _ & Hn)]);
    rewrite Hi, Hu, Hn; repeat split; lia.
Qed.

Lemma SND_UNA_never_advances_witness :
  SND_UNA (self (snd (run (HandleAckPacket sample_ack_packet) sample_open_machine)))
  = SND_UNA (self sample_open_machine)
  /\ SND_ISS (self (snd (run (HandleAckPacket sample_ack_packet) sample_open_machine)))
     = SND_ISS (self sample_open_machine)
  /\ SND_NXT (self sample_open_machine)
     <= SND_NXT (self (snd (run (HandleAckPacket sample_ack_packet) sample_open_machine))).
Proof.
  exact (SND_UNA_never_advances (HandleAckPacket sample_ack_packet) sample_open_machine
           eq_refl).
Defined.

Lemma run_preserves_window_bound (k : call) (m : machine) :
  window_bound (self m) -> window_bound (self (snd (run k m))).
Proof.
  intros Hb. pose proof (run_send_counters k m) as H. cbv zeta in H.
  unfold window_bound in *.
  destruct k;
    try (destruct H as (_ & Hn & Hu & Hm); rewrite Hn, Hu, Hm; exact Hb).
  - destruct H as [-> | (_ & Hn & Hu & _)]; [exact Hb|]. rewrite Hn, Hu. lia.
  - destruct H as (_ & Hu & Hm & [Hn | (mx & Hmx & Hlen & Hfree & Hn)]);
      rewrite Hu, Hm, Hn; [exact Hb|].
    rewrite Hmx. cbn [or_default]. lia.
  - destruct H as [-> | ->]; [exact Hb|]. fields. lia.
  - destruct H as [-> | ->]; [exact Hb|]. fields. lia.
Qed.

(** X20: The checks of [send] bound what is in flight: on a connection made by
    [__init__], after any calls of any methods, [SND_NXT] is at most
    [SND_UNA + max 1 (2 * SND_MAX - 1)], with 0 for an [SND_MAX] not yet
    recorded. *)
Theorem window_bound_invariant (remote : option address) (sp dp : option Z)
    (ks : list call) :
  window_bound (self (run_all ks (mkM (init remote sp dp) []))).
Proof.
  assert (forall m, window_bound (self m) -> window_bound (self (run_all ks m))) as H.
  { induction ks as [|k ks IH]; intros m Hb; cbn [run_all]; [exact Hb|].
    apply IH. now apply run_preserves_window_bound. }
  apply H. unfold window_bound. cbn. lia.
Qed.

Lemma run_all_keeps_missing_SND_MAX (ks : list call) : forall m,
  SND_MAX (self m) = None ->
  forallb (fun k => negb (is_open_call k)) ks = true ->
  SND_MAX (self (run_all ks m)) = None.
Proof.
  induction ks as [|k ks IH]; intros m Hm Hks; cbn [run_all]; [exact Hm|].
  cbn [forallb] in Hks. apply andb_true_iff in Hks as [Hk Hks].
  apply IH; [|exact Hks].
  pose proof (run_send_counters k m) as H. cbv zeta in H.
  destruct k; try discriminate Hk;
    try (destruct H as (_ & _ & _ & ->); exact Hm).
  - destruct H as (_ & _ & -> & _). exact Hm.
  - destruct H as [-> | ->]; exact Hm.
  - destruct H as [-> | ->]; exact Hm.
Qed.

(** X21: Only [open] records [SND_MAX].  On a connection that reached OPEN
    without [open] (by [listen] and the handlers, as a server does), [send]
    raises [AttributeError] on every payload and changes nothing. *)
Theorem send_without_open (m : machine) (ks : list call) :
  SND_MAX (self m) = None ->
  forallb (fun k => negb (is_open_call k)) ks = true ->
  let m' := run_all ks m in
  SND_MAX (self m') = None
  /\ (state (self m') = OPEN ->
      forall data, send data m' = (Raise AttributeError, m')).
Proof.
  intros Hm Hks m'.
  pose proof (run_all_keeps_missing_SND_MAX ks m Hm Hks) as Hnone. fold m' in Hnone.
  split; [exact Hnone|]. intros Hst data. destruct m' as [c out].
  cbn [self] in *. unfold send, bind, get, getattr, ret. cbn [self sent].
  rewrite Hst. cbn [State_eqb negb self sent]. rewrite Hnone. reflexivity.
Qed.

Lemma send_without_open_witness :
  let m' := run_all [Listen None 12345; HandleSynPacket sample_syn_packet;
                     HandleAckPacket sample_ack_packet]
              (mkM (init None (Some 12345) None) []) in
  SND_MAX (self m') = None
  /\ (state (self m') = OPEN ->
      forall data, send data m' = (Raise AttributeError, m')).
Proof.
  exact (send_without_open (mkM (init None (Some 12345) None) [])
           [Listen None 12345; HandleSynPacket sample_syn_packet;
            HandleAckPacket sample_ack_packet] eq_refl eq_refl).
Defined.

Lemma run_all_keeps_full_window (snd_max : Z) (ks : list call) : forall m,
  SND_MAX (self m) = Some snd_max ->
  SND_NXT (self m) >= SND_UNA (self m) + snd_max ->
  forallb (fun k => negb (resets_counters k)) ks = true ->
  SND_MAX (self (run_all ks m)) = Some snd_max
  /\ SND_NXT (self (run_all ks m)) >= SND_UNA (self (run_all ks m)) + snd_max.
Proof.
  induction ks as [|k ks IH]; intros m Hm Hfull Hks; cbn [run_all]; [auto|].
  cbn [forallb] in Hks. apply andb_true_iff in Hks as [Hk Hks].
  pose proof (run_send_counters k m) as H. cbv zeta in H.
  apply IH; [| |exact Hks];
    destruct k; try discriminate Hk;
    try (destruct H as (_ & Hn & Hu & Hmx); rewrite ?Hn, ?Hu, ?Hmx; assumption);
    destruct H as (_ & Hu & Hmx & [Hn | (mx & _ & _ & _ & Hn)]);
    rewrite ?Hn, ?Hu, ?Hmx; (assumption || lia).
Qed.

(** X22: A full window stays full.  Once [SND_NXT >= SND_UNA + SND_MAX], it stays
    so whatever is called short of [open] and [reset_connection], packet
    handlers included, and every [send] of a payload that fits [SND_MAX] on
    the OPEN connection returns WindowFull. *)
Theorem full_window_is_permanent (m : machine) (snd_max : Z) (ks : list call) :
  SND_MAX (self m) = Some snd_max ->
  SND_NXT (self m) >= SND_UNA (self m) + snd_max ->
  forallb (fun k => negb (resets_counters k)) ks = true ->
  let m' := run_all ks m in
  SND_NXT (self m') >= SND_UNA (self m') + snd_max
  /\ (state (self m') = OPEN ->
      forall data, Z.of_nat (length data) <= snd_max ->
                   send data m' = (Return (VStr WindowFull), m')).
Proof.
  intros Hm Hfull Hks m'.
  destruct (run_all_keeps_full_window snd_max ks m Hm Hfull Hks) as [Hm' Hfull'].
  fold m' in Hm', Hfull'. split; [exact Hfull'|].
  intros Hst data Hlen. destruct m' as [c out]. cbn [self] in *.
  rewrite (send_in_open c out data snd_max Hst Hm').
  destruct (Z.gtb_spec (Z.of_nat (length data)) snd_max); [lia|].
  destruct (Z.geb_spec (SND_NXT c) (SND_UNA c + snd_max)); [reflexivity | lia].
Qed.

Lemma full_window_is_permanent_witness :
  let m := mkM (set_SND_NXT 51 sample_open_connection) [] in
  let m' := run_all [HandleAckPacket sample_ack_packet; Send [x68; x69]] m in
  SND_NXT (self m') >= SND_UNA (self m') + 10
  /\ (state (self m') = OPEN ->
      forall data, Z.of_nat (length data) <= 10 ->
                   send data m' = (Return (VStr WindowFull), m')).
Proof.
  apply (full_window_is_permanent (mkM (set_SND_NXT 51 sample_open_connection) []) 10
           [HandleAckPacket sample_ack_packet; Send [x68; x69]]).
  - reflexivity.
  - vm_compute. discriminate.
  - reflexivity.
Defined.

(** X23: CLOSE-WAIT is a dead end.  After [close] has moved an OPEN connection
    to CLOSE-WAIT, neither [open], [close], [send], [receive] nor any packet
    handler or sender takes it out of that state: only [reset_connection],
    [listen] and [handle_state_transition], which assign the state without
    looking at it, do. *)
Theorem close_wait_is_stuck (k : call) (m : machine) :
  state (self m) = CLOSE_WAIT ->
  assigns_state k = false ->
  state (self (snd (run k m))) = CLOSE_WAIT.
Proof.
  destruct m as [c out]. cbn [self]. intros Hst Hk.
  destruct k; try discriminate Hk; cbn [run].
  - (* open *)
    unfold open. unfold_m. cbn [self]. rewrite Hst. exact Hst.
  - (* close *)
    rewrite close_run, Hst. exact Hst.
  - (* send *)
    unfold send. unfold_m. cbn [self]. rewrite Hst. exact Hst.
  - (* send_packet *)
    now rewrite send_packet_self.
  - (* receive_packet *)
    destruct dgram as [payload addr]. rewrite receive_packet_run.
    destruct (address_ne _ _); [exact Hst|]. destruct (RDPPacket.decode _); exact Hst.
  - (* send_ack *)
    unfold send_ack. unfold_m. cbn [self sent]. now rewrite send_packet_self.
  - (* send_syn_ack *)
    unfold send_syn_ack. unfold_m. cbn [self sent]. now rewrite send_packet_self.
  - (* receive *)
    destruct dgram as [payload addr]. rewrite receive_run, Hst. exact Hst.
  - (* process_packet *)
    exact Hst.
  - (* handle_syn_packet *)
    unfold handle_syn_packet. unfold_m. cbn [self sent]. rewrite Hst. exact Hst.
  - (* handle_syn_ack_packet *)
    unfold handle_syn_ack_packet. unfold_m. cbn [self sent]. rewrite Hst. exact Hst.
  - (* handle_ack_packet *)
    unfold handle_ack_packet. unfold_m. cbn [self sent]. rewrite Hst. exact Hst.
  - (* handle_data_packet *)
    unfold handle_data_packet. unfold_m. cbn [self sent]. rewrite Hst. exact Hst.
  - (* handle_rst_packet *)
    unfold handle_rst_packet. unfold_m. cbn [self sent]. rewrite Hst. exact Hst.
  - (* send_rst *)
    unfold send_rst. unfold_m. cbn [self sent]. now rewrite send_packet_self.
  - (* allocate_local_port *)
    exact Hst.
Qed.

Lemma close_wait_is_stuck_witness :
  state (self (snd (run (Open 41 false None (Some 9000) None None)
                      (mkM (set_state CLOSE_WAIT sample_open_connection) []))))
  = CLOSE_WAIT.
Proof.
  exact (close_wait_is_stuck (Open 41 false None (Some 9000) None None)
           (mkM (set_state CLOSE_WAIT sample_open_connection) []) eq_refl eq_refl).
Defined.

(** X24: [close] has no way to fail softly: when the RST packet of the
    connection cannot be encoded (a port that is [None], as the destination
    port of a server's connection, or a counter that outgrew 32 bits), a
    [close] in LISTEN, SYN-RCVD, SYN-SENT or OPEN raises [struct.error],
    sends nothing and leaves the state as it was. *)
Theorem close_unencodable_rst (m : machine) :
  encodable (rst_packet (self m)) = false ->
  state (self m) <> CLOSED -> state (self m) <> CLOSE_WAIT ->
  close m = (Raise struct_error, m).
Proof.
  destruct m as [c out]. cbn [self]. intros He Hc Hw.
  rewrite close_run, (encode_not_encodable _ He).
  destruct (state c); try contradiction; reflexivity.
Qed.

Lemma close_unencodable_rst_witness :
  close (mkM (set_state LISTEN (init None (Some 12345) None)) [])
  = (Raise struct_error, mkM (set_state LISTEN (init None (Some 12345) None)) []).
Proof.
  apply (close_unencodable_rst (mkM (set_state LISTEN (init None (Some 12345) None)) [])).
  - reflexivity.
  - discriminate.
  - discriminate.
Defined.

Lemma open_passive_run (c : t) (out : list (bytes * option address)) (iss lp : Z)
    (rp smax rbuf : option Z) :
  state c = CLOSED ->
  open iss true (Some lp) rp smax rbuf (mkM c out)
  = (Return (VStr "Connection opened in state LISTEN"),
     mkM (set_state LISTEN (with_open_counters iss smax rbuf c)) out).
Proof.
  intros Hst. unfold open, opened, bind, get, ret, modify. cbn [self sent].
  rewrite Hst. reflexivity.
Qed.

Lemma handle_syn_packet_run (c : t) (out : list (bytes * option address))
    (p : RDPPacket.t) :
  state c = LISTEN -> RDPPacket.syn p = true ->
  let c1 := set_RCV_CUR (RDPPacket.seq_num p) c in
  handle_syn_packet p (mkM c out)
  = match RDPPacket.encode (syn_ack_packet c1 (RDPPacket.source_port p)) with
    | Some wire =>
        (Return VNone, mkM (set_state SYN_RCVD c1) (out ++ [(wire, remote_address c)]))
    | None => (Raise struct_error, mkM c1 out)
    end.
Proof.
  intros Hst Hsyn. cbv zeta.
  unfold handle_syn_packet, send_syn_ack, send_packet, bind, get, ret, modify,
    lift_struct, sendto.
  cbn [self sent]. rewrite Hst, Hsyn. cbn [State_eqb andb self sent].
  fold (syn_ack_packet (set_RCV_CUR (RDPPacket.seq_num p) c) (RDPPacket.source_port p)).
  destruct (RDPPacket.encode _); reflexivity.
Qed.

Lemma handle_syn_ack_packet_run (c : t) (out : list (bytes * option address))
    (p : RDPPacket.t) :
  state c = SYN_SENT -> RDPPacket.syn p = true -> RDPPacket.ack p = true ->
  let c1 := set_RCV_CUR (RDPPacket.seq_num p) c in
  handle_syn_ack_packet p (mkM c out)
  = match RDPPacket.encode (ack_packet c1 (RDPPacket.source_port p)) with
    | Some wire =>
        (Return VNone, mkM (set_state OPEN c1) (out ++ [(wire, remote_address c)]))
    | None => (Raise struct_error, mkM c1 out)
    end.
Proof.
  intros Hst Hsyn Hack. cbv zeta.
  unfold handle_syn_ack_packet, send_ack, send_packet, bind, get, ret, modify,
    lift_struct, sendto.
  cbn [self sent]. rewrite Hst, Hsyn, Hack. cbn [State_eqb andb self sent].
  fold (ack_packet (set_RCV_CUR (RDPPacket.seq_num p) c) (RDPPacket.source_port p)).
  destruct (RDPPacket.encode _); reflexivity.
Qed.

Lemma encode_valid_empty (p : RDPPacket.t) :
  valid p = true -> RDPPacket.data p = [] -> exists wire, RDPPacket.encode p = Some wire.
Proof.
  intros Hv Hd. pose proof (valid_empty_encodable p Hv Hd) as He.
  destruct (RDPPacket.encode p) as [wire|] eqn:E; [eauto|].
  apply encode_Some_iff in He. contradiction.
Qed.

Ltac packet_fields :=
  cbn [RDPPacket.source_port RDPPacket.dest_port RDPPacket.seq_num RDPPacket.ack_num
       RDPPacket.data RDPPacket.syn RDPPacket.ack RDPPacket.eack RDPPacket.rst
       RDPPacket.nul] in *.

(** X15: The three-way handshake works on the packet objects.  When the packets
    that the two ends build are handed to the handlers as they are, without
    the codec in between, an active [open] of A and a passive [open] of B,
    followed by [handle_syn_packet] at B, [handle_syn_ack_packet] at A and
    [handle_ack_packet] at B, leave both ends OPEN, each with the initial
    sequence number of the other in [RCV_CUR]; A has sent the SYN and the ACK,
    B the SYN+ACK, and nothing else. *)
Theorem handshake_on_packets (cA cB : t) (outA outB : list (bytes * option address))
    (iss_a iss_b pb lpb : Z) :
  state cA = CLOSED -> state cB = CLOSED ->
  initial_sequence_number iss_a -> initial_sequence_number iss_b ->
  0 <= pb < 65536 -> port_ok (source_port cB) = true ->
  let mA1 := snd (open iss_a false None (Some pb) None None (mkM cA outA)) in
  let syn := syn_packet (Some 10000) pb iss_a in
  let mB1 := snd (open iss_b true (Some lpb) None None None (mkM cB outB)) in
  let mB2 := snd (handle_syn_packet syn mB1) in
  let synack := syn_ack_packet (self mB2) (Some 10000) in
  let mA2 := snd (handle_syn_ack_packet synack mA1) in
  let ack := ack_packet (self mA2) (source_port cB) in
  let mB3 := snd (handle_ack_packet ack mB2) in
  state (self mA2) = OPEN /\ state (self mB3) = OPEN
  /\ RCV_CUR (self mA2) = iss_b /\ RCV_CUR (self mB3) = iss_a
  /\ RDPPacket.seq_num synack = iss_b /\ RDPPacket.ack_num synack = iss_a
  /\ RDPPacket.seq_num ack = iss_a + 1 /\ RDPPacket.ack_num ack = iss_b
  /\ exists w1 w2 w3,
       RDPPacket.encode syn = Some w1
       /\ RDPPacket.encode synack = Some w2
       /\ RDPPacket.encode ack = Some w3
       /\ sent mA2 = outA ++ [(w1, remote_address cA); (w3, remote_address cA)]
       /\ sent mB3 = outB ++ [(w2, remote_address cB)].
Proof.
  intros HA HB Ia Ib Hpb Hsb. unfold initial_sequence_number in Ia, Ib.
  apply port_ok_true in Hsb as (sb & Hsb & Rsb).
  assert (forall src dst seq ackn f1 f2 f3 f4 f5,
            (src = Some 10000 \/ src = Some sb) ->
            (dst = Some 10000 \/ dst = Some sb \/ dst = Some pb) ->
            0 <= seq <= 10001 -> 0 <= ackn <= 10001 ->
            exists wire,
              RDPPacket.encode (RDPPacket.mk src dst seq ackn [] f1 f2 f3 f4 f5)
              = Some wire) as Henc.
  { intros. apply encode_valid_empty; [|reflexivity].
    unfold valid. packet_fields.
    assert (port_ok src = true) as -> by
      (destruct H as [-> | ->]; cbn [port_ok]; apply u16_true; lia).
    assert (port_ok dst = true) as -> by
      (destruct H0 as [-> | [-> | ->]]; cbn [port_ok]; apply u16_true; lia).
    rewrite !andb_true_iff, !u32_true. repeat split; lia. }
  intros mA1 syn mB1 mB2 synack mA2 ack mB3.
  (* A: active open *)
  assert (exists w1, RDPPacket.encode syn = Some w1) as [w1 Hw1]
    by (apply Henc; auto; lia).
  assert (mA1 = mkM (set_state SYN_SENT
                       (set_source_port (Some 10000)
                          (with_open_counters iss_a None None cA)))
                    (outA ++ [(w1, remote_address cA)])) as HmA1.
  { subst mA1. rewrite (open_active_run cA outA iss_a pb None None None HA).
    cbv zeta. unfold syn in Hw1.
    change (source_port (set_source_port (Some 10000)
                           (with_open_counters iss_a None None cA)))
      with (Some 10000).
    rewrite Hw1. reflexivity. }
  (* B: passive open *)
  assert (mB1 = mkM (set_state LISTEN (with_open_counters iss_b None None cB)) outB)
    as HmB1.
  { subst mB1. now rewrite (open_passive_run cB outB iss_b lpb None None None HB). }
  (* B: the SYN *)
  assert (exists w2,
            RDPPacket.encode
              (syn_ack_packet
                 (set_RCV_CUR iss_a (set_state LISTEN (with_open_counters iss_b None None cB)))
                 (Some 10000)) = Some w2) as [w2 Hw2]
    by (unfold syn_ack_packet; fields; rewrite Hsb; apply Henc; auto; lia).
  assert (mB2 = mkM (set_state SYN_RCVD
                       (set_RCV_CUR iss_a
                          (set_state LISTEN (with_open_counters iss_b None None cB))))
                    (outB ++ [(w2, remote_address cB)])) as HmB2.
  { subst mB2. rewrite HmB1.
    rewrite (handle_syn_packet_run
               (set_state LISTEN (with_open_counters iss_b None None cB)) outB syn
               eq_refl eq_refl). cbv zeta.
    change (RDPPacket.seq_num syn) with iss_a.
    change (RDPPacket.source_port syn) with (Some 10000).
    rewrite Hw2. reflexivity. }
  (* A: the SYN+ACK *)
  assert (exists w3,
            RDPPacket.encode
              (ack_packet
                 (set_RCV_CUR iss_b
                    (set_state SYN_SENT
                       (set_source_port (Some 10000)
                          (with_open_counters iss_a None None cA))))
                 (source_port cB)) = Some w3) as [w3 Hw3]
    by (unfold ack_packet; fields; rewrite Hsb; apply Henc; auto; lia).
  assert (mA2 = mkM (set_state OPEN
                       (set_RCV_CUR iss_b
                          (set_state SYN_SENT
                             (set_source_port (Some 10000)
                                (with_open_counters iss_a None None cA)))))
                    ((outA ++ [(w1, remote_address cA)]) ++ [(w3, remote_address cA)]))
    as HmA2.
  { subst mA2. rewrite HmA1.
    assert (RDPPacket.syn synack = true /\ RDPPacket.ack synack = true) as [S1 S2]
      by (split; reflexivity).
    rewrite (handle_syn_ack_packet_run
               (set_state SYN_SENT
                  (set_source_port (Some 10000) (with_open_counters iss_a None None cA)))
               (outA ++ [(w1, remote_address cA)]) synack eq_refl S1 S2). cbv zeta.
    assert (RDPPacket.seq_num synack = iss_b) as -> by (subst synack; now rewrite HmB2).
    assert (RDPPacket.source_port synack = source_port cB) as ->
      by (subst synack; now rewrite HmB2).
    rewrite Hw3. reflexivity. }
  (* B: the ACK *)
  assert (mB3 = mkM (set_state OPEN (self mB2)) (sent mB2)) as HmB3.
  { subst mB3. rewrite HmB2. reflexivity. }
  rewrite HmB3. clear HmB3. clearbody mB3.
  assert (RDPPacket.seq_num synack = iss_b /\ RDPPacket.ack_num synack = iss_a) as [E1 E2]
    by (subst synack; rewrite HmB2; split; reflexivity).
  assert (RDPPacket.seq_num ack = iss_a + 1 /\ RDPPacket.ack_num ack = iss_b) as [E3 E4]
    by (subst ack; rewrite HmA2; split; reflexivity).
  assert (RDPPacket.encode synack = Some w2) as Hsynack
    by (subst synack; rewrite HmB2; exact Hw2).
  assert (RDPPacket.encode ack = Some w3) as Hack
    by (subst ack; rewrite HmA2; exact Hw3).
  rewrite HmA2, HmB2. cbn [self sent].
  repeat split; try reflexivity; try assumption.
  exists w1, w2, w3. rewrite <- app_assoc. cbn [app]. auto.
Qed.

Lemma handshake_on_packets_witness :
  let cA := init (Some sample_peer) None (Some 9000) in
  let cB := init (Some ("127.0.0.1"%string, 10000)) (Some 9000) None in
  let mA1 := snd (open 41 false None (Some 9000) None None (mkM cA [])) in
  let syn := syn_packet (Some 10000) 9000 41 in
  let mB1 := snd (open 77 true (Some 9000) None None None (mkM cB [])) in
  let mB2 := snd (handle_syn_packet syn mB1) in
  let synack := syn_ack_packet (self mB2) (Some 10000) in
  let mA2 := snd (handle_syn_ack_packet synack mA1) in
  let ack := ack_packet (self mA2) (source_port cB) in
  let mB3 := snd (handle_ack_packet ack mB2) in
  state (self mA2) = OPEN /\ state (self mB3) = OPEN
  /\ RCV_CUR (self mA2) = 77 /\ RCV_CUR (self mB3) = 41
  /\ RDPPacket.seq_num synack = 77 /\ RDPPacket.ack_num synack = 41
  /\ RDPPacket.seq_num ack = 41 + 1 /\ RDPPacket.ack_num ack = 77
  /\ exists w1 w2 w3,
       RDPPacket.encode syn = Some w1
       /\ RDPPacket.encode synack = Some w2
       /\ RDPPacket.encode ack = Some w3
       /\ sent mA2 = [] ++ [(w1, remote_address cA); (w3, remote_address cA)]
       /\ sent mB3 = [] ++ [(w2, remote_address cB)].
Proof.
  apply (handshake_on_packets (init (Some sample_peer) None (Some 9000))
           (init (Some ("127.0.0.1"%string, 10000)) (Some 9000) None) [] []
           41 77 9000 9000).
  - reflexivity.
  - reflexivity.
  - unfold initial_sequence_number. lia.
  - unfold initial_sequence_number. lia.
  - lia.
  - reflexivity.
Defined.

End ConnectionProperties.
